(** * Asynchronous magic methods of the ChiPy notebook, embedded in Rocq

    The notebook [comprehensive.ipynb] demonstrates [__aiter__]/[__anext__],
    [__aenter__]/[__aexit__] and [__await__].  Each class and function of the
    notebook is embedded below as a state-passing function: an awaited
    call takes the state of the object it runs on and returns the new state,
    the events it performed (suspensions on [asyncio.sleep], prints) and
    either a value or the exception it raised.  Python integers are [Z]. *)

From Stdlib Require Import ZArith List String Ascii Bool Lia DecimalString QArith.
Import ListNotations.
Open Scope string_scope.
Open Scope list_scope.
Open Scope Z_scope.

(** * Part I: the notebook, embedded *)

(** ** Python runtime: values, exceptions, results, events *)

Inductive pyval : Type :=
| PyNone
| PyBool (b : bool)
| PyInt (z : Z)
| PyStr (s : string).

(** [bool(v)]: the truth value Python tests in [if not ...]. *)
Definition truthy (v : pyval) : bool :=
  match v with
  | PyNone => false
  | PyBool b => b
  | PyInt z => negb (z =? 0)
  | PyStr s => negb (String.eqb s EmptyString)
  end.

Inductive exc_class : Type :=
| StopAsyncIteration
| ZeroDivisionError
| TypeError
| CancelledError.

Record exception : Type := { exc_type : exc_class; exc_msg : string }.

Definition exc_class_eqb (a b : exc_class) : bool :=
  match a, b with
  | StopAsyncIteration, StopAsyncIteration
  | ZeroDivisionError, ZeroDivisionError
  | TypeError, TypeError
  | CancelledError, CancelledError => true
  | _, _ => false
  end.

(** [isinstance(exc, Exception)].  The notebook was run on Python 3.7, where
    [asyncio.CancelledError] still derives from [Exception]. *)
Definition is_Exception (c : exc_class) : bool :=
  match c with
  | StopAsyncIteration | ZeroDivisionError | TypeError | CancelledError => true
  end.

Inductive result (A : Type) : Type :=
| Return (a : A)
| Raise (e : exception).
Arguments Return {A} a.
Arguments Raise {A} e.

Definition newline : string := String (ascii_of_nat 10) EmptyString.

Inductive event : Type :=
| EvSleep                                   (* await asyncio.sleep(0.1) *)
| EvPrint (text : string) (end_ : string)   (* print(text, end=end_) *)
| EvAEnter                                  (* await aenter(mgr) *)
| EvAExit (exc : option exception).         (* await aexit(mgr, *exc_info) *)

(** [str(n)] for an integer. *)
Definition str (z : Z) : string := NilZero.string_of_int (Z.to_int z).

Definition is_print (e : event) : bool :=
  match e with EvPrint _ _ => true | _ => false end.

(** What reaches standard output, as events and as text. *)
Definition stdout (tr : list event) : list event := filter is_print tr.

Fixpoint render (tr : list event) : string :=
  match tr with
  | [] => EmptyString
  | EvPrint text end_ :: tr' => (text ++ end_ ++ render tr')%string
  | _ :: tr' => render tr'
  end.

(** State of an asynchronous generator object (PEP 525). *)
Inductive gen_state : Type :=
| GenCreated      (* not started *)
| GenSuspended    (* stopped at its [yield] *)
| GenClosed.      (* body finished *)

(** An awaited call on a state [S] giving an [A]. *)
Definition awaited (S A : Type) : Type := (S * list event * result A)%type.

(** ** Cell 3: the three producers *)

Module async_gen_func.

(** Frame of the generator object [async_gen_func(limit)]: the locals [n]
    and [limit].  [n] is unbound until the first resumption assigns 0. *)
Record t : Type := { state : gen_state; n : Z; limit : Z }.

Definition call (limit : Z) : t :=
  {| state := GenCreated; n := 0; limit := limit |}.

(** Resumption at the test of [while n < limit: n += 1; yield n]. *)
Definition loop (f : t) : awaited t Z :=
  if n f <? limit f
  then let n' := n f + 1 in
       ({| state := GenSuspended; n := n'; limit := limit f |}, [], Return n')
  else ({| state := GenClosed; n := n f; limit := limit f |}, [],
        Raise {| exc_type := StopAsyncIteration; exc_msg := EmptyString |}).

(** [await agen.asend(value)]; [yield n] is a statement here, so the sent
    value is dropped. *)
Definition asend (value : option Z) (f : t) : awaited t Z :=
  match state f with
  | GenCreated =>
      match value with
      | Some _ =>
          (f, [], Raise {| exc_type := TypeError;
                           exc_msg := "can't send non-None value to a just-started async generator" |})
      | None =>
          (* await asyncio.sleep(0.1); n = 0 *)
          let '(f', ev, r) :=
            loop {| state := GenCreated; n := 0; limit := limit f |} in
          (f', EvSleep :: ev, r)
      end
  | GenSuspended => loop f
  | GenClosed =>
      (f, [], Raise {| exc_type := StopAsyncIteration; exc_msg := EmptyString |})
  end.

Definition __anext__ (f : t) : awaited t Z := asend None f.

(** An async generator object is its own iterator. *)
Definition __aiter__ (f : t) : t := f.

End async_gen_func.

Module AsyncIterable.

Record t : Type := { n : Z; limit : Z }.

Definition __init__ (limit : Z) : t := {| n := 0; limit := limit |}.

(** The generator object made by [__aiter__]: its frame holds a reference
    to [self], whose attributes it mutates; the instance state is threaded
    through the generator and read back with [self]. *)
Record gen : Type := { self : t; state : gen_state }.

Definition __aiter__ (self : t) : gen :=
  {| self := self; state := GenCreated |}.

(** Resumption at the test of
    [while self.n < self.limit: self.n += 1; value = yield self.n]. *)
Definition loop (s : t) : awaited gen Z :=
  if n s <? limit s
  then let s' := {| n := n s + 1; limit := limit s |} in
       ({| self := s'; state := GenSuspended |}, [], Return (n s'))
  else ({| self := s; state := GenClosed |}, [],
        Raise {| exc_type := StopAsyncIteration; exc_msg := EmptyString |}).

(** [await agen.asend(value)]: [value] becomes the result of the [yield];
    [if value is not None: self.n = value]. *)
Definition asend (value : option Z) (g : gen) : awaited gen Z :=
  match state g with
  | GenCreated =>
      match value with
      | Some _ =>
          (g, [], Raise {| exc_type := TypeError;
                           exc_msg := "can't send non-None value to a just-started async generator" |})
      | None =>
          (* await asyncio.sleep(0.1) *)
          let '(g', ev, r) := loop (self g) in (g', EvSleep :: ev, r)
      end
  | GenSuspended =>
      let s := match value with
               | Some v => {| n := v; limit := limit (self g) |}
               | None => self g
               end in
      loop s
  | GenClosed =>
      (g, [], Raise {| exc_type := StopAsyncIteration; exc_msg := EmptyString |})
  end.

Definition __anext__ (g : gen) : awaited gen Z := asend None g.

End AsyncIterable.

Module AsyncIterator.

Record t : Type := { n : Z; limit : Z }.

Definition __init__ (limit : Z) : t := {| n := 0; limit := limit |}.

(** Not async: returns [self]. *)
Definition __aiter__ (self : t) : t := self.

Definition __anext__ (self : t) : awaited t Z :=
  (* await asyncio.sleep(0.1); self.n += 1 *)
  let self := {| n := n self + 1; limit := limit self |} in
  if n self >? limit self
  then (self, [EvSleep], Raise {| exc_type := StopAsyncIteration; exc_msg := EmptyString |})
  else (self, [EvSleep], Return (n self)).

End AsyncIterator.

(** ** Cell 4: [demo_ag] *)

(** What [demo_ag] needs of [ag_callable]: the call itself, [__aiter__] of
    the type of what it returns, and [__anext__] of the iterator. *)
Class AgCallable (Iter Gen : Type) : Type := {
  ag_call : Z -> Iter;
  ag_aiter : Iter -> Gen;
  ag_anext : Gen -> awaited Gen Z
}.

#[export] Instance async_gen_func_callable
  : AgCallable async_gen_func.t async_gen_func.t :=
  {| ag_call := async_gen_func.call;
     ag_aiter := async_gen_func.__aiter__;
     ag_anext := async_gen_func.__anext__ |}.

#[export] Instance AsyncIterable_callable
  : AgCallable AsyncIterable.t AsyncIterable.gen :=
  {| ag_call := AsyncIterable.__init__;
     ag_aiter := AsyncIterable.__aiter__;
     ag_anext := AsyncIterable.__anext__ |}.

#[export] Instance AsyncIterator_callable
  : AgCallable AsyncIterator.t AsyncIterator.t :=
  {| ag_call := AsyncIterator.__init__;
     ag_aiter := AsyncIterator.__aiter__;
     ag_anext := AsyncIterator.__anext__ |}.

Definition ev_item (target : Z) : event := EvPrint (str target) ", ".
Definition ev_done : event := EvPrint "done" newline.

Definition prepend {S A : Type} (ev : list event)
  (r : option (awaited S A)) : option (awaited S A) :=
  match r with
  | Some (s, ev', o) => Some (s, ev ++ ev', o)
  | None => None
  end.

Section Driver.
Context {Iter Gen : Type} `{AgCallable Iter Gen}.

(** [while running: try: target = await async_gen.__anext__()
     except StopAsyncIteration: running = False
     else: print(target, end=", ")
    else: print("done")].
    One unit of fuel pays for one test of [running]. *)
Fixpoint while_running (fuel : nat) (running : bool) (async_gen : Gen)
  : option (awaited Gen unit) :=
  match fuel with
  | O => None
  | S fuel' =>
      if running then
        match ag_anext async_gen with
        | (g', ev, Raise e) =>
            match exc_type e with
            | StopAsyncIteration => prepend ev (while_running fuel' false g')
            | _ => Some (g', ev, Raise e)
            end
        | (g', ev, Return target) =>
            prepend (ev ++ [ev_item target]) (while_running fuel' true g')
        end
      else Some (async_gen, [ev_done], Return tt)
  end.

(** The manual half of [demo_ag], on [ag_callable(limit)]. *)
Definition manual (fuel : nat) (limit : Z) : option (awaited Gen unit) :=
  let iter_ := ag_call limit in
  let async_gen := ag_aiter iter_ in
  while_running fuel true async_gen.

End Driver.

(** [async for target in ITER: BLOCK else: BLOCK2] is, by PEP 492, the loop
    the manual half spells out. *)
Definition async_for {Iter Gen : Type} `{AgCallable Iter Gen}
  (fuel : nat) (iter : Iter) : option (awaited Gen unit) :=
  while_running fuel true (ag_aiter iter).

(** The whole of [demo_ag(ag_callable, limit)].  The second half iterates
    [async_gen_func(limit)] whatever [ag_callable] is. *)
Definition demo_ag {Iter Gen : Type} `{AgCallable Iter Gen}
  (fuel : nat) (limit : Z) : option (list event * result unit) :=
  match manual fuel limit with
  | None => None
  | Some (_, ev1, Raise e) => Some (EvPrint "manual: " EmptyString :: ev1, Raise e)
  | Some (_, ev1, Return _) =>
      match async_for fuel (async_gen_func.call limit) with
      | None => None
      | Some (_, ev2, r) =>
          Some (EvPrint "manual: " EmptyString :: ev1 ++ EvPrint "magic : " EmptyString :: ev2, r)
      end
  end.

(** ** Cells 9 and 10: [AsyncContextManager] and [async with] *)

Module AsyncContextManager.

(** [resource_used] is the attribute the block of cell 10 sets on the
    instance; [None] while it is absent. *)
Record t : Type := { exclusive_resource : pyval; resource_used : option bool }.

Definition __init__ (exclusive_resource : pyval) : t :=
  {| exclusive_resource := exclusive_resource; resource_used := None |}.

(** Reads [self.exclusive_resource] and returns nothing. *)
Definition __aenter__ (self : t) : awaited t pyval :=
  let _ := exclusive_resource self in
  (self, [], Return PyNone).

(** [pass]: returns nothing.  [exc] stands for the three arguments
    [exc_type, exc_value, tb]; [None] when all three are [None]. *)
Definition __aexit__ (self : t) (exc : option exception) : awaited t pyval :=
  (self, [], Return PyNone).

End AsyncContextManager.

(** What [async with] needs of the type of its manager. *)
Class AsyncCM (M : Type) : Type := {
  cm_aenter : M -> awaited M pyval;
  cm_aexit : M -> option exception -> awaited M pyval
}.

#[export] Instance AsyncContextManager_cm : AsyncCM AsyncContextManager.t :=
  {| cm_aenter := AsyncContextManager.__aenter__;
     cm_aexit := AsyncContextManager.__aexit__ |}.

(** The statements of a guarded block: one that runs without suspending
    (it may change the manager and may raise), or a suspension on
    [asyncio.sleep]. *)
Inductive stmt (M : Type) : Type :=
| Exec (f : M -> M * result unit)
| AwaitSleep.
Arguments Exec {M} f.
Arguments AwaitSleep {M}.

(** Runs the block.  [cancel_at = Some k] is the scheduler cancelling the
    task while it is suspended at the [k]-th suspension point of the block
    (counted from 0): [CancelledError] is raised there.  [None]: the task is
    never cancelled. *)
Fixpoint run_block {M : Type} (body : list (stmt M)) (cancel_at : option nat)
  (m : M) : awaited M unit :=
  match body with
  | [] => (m, [], Return tt)
  | Exec f :: rest =>
      match f m with
      | (m', Return _) => run_block rest cancel_at m'
      | (m', Raise e) => (m', [], Raise e)
      end
  | AwaitSleep :: rest =>
      match cancel_at with
      | Some O =>
          (m, [EvSleep], Raise {| exc_type := CancelledError; exc_msg := EmptyString |})
      | Some (S k) =>
          let '(m', ev, r) := run_block rest (Some k) m in (m', EvSleep :: ev, r)
      | None =>
          let '(m', ev, r) := run_block rest None m in (m', EvSleep :: ev, r)
      end
  end.

(** [async with mgr: BLOCK], as PEP 492 defines it:
    [aexit = type(mgr).__aexit__; aenter = type(mgr).__aenter__;
     await aenter(mgr);
     try: BLOCK
     except: if not await aexit(mgr, *sys.exc_info()): raise
     else: await aexit(mgr, None, None, None)]. *)
Definition async_with {M : Type} `{AsyncCM M} (mgr : M) (body : list (stmt M))
  (cancel_at : option nat) : awaited M unit :=
  match cm_aenter mgr with
  | (m1, ev0, Raise e) => (m1, EvAEnter :: ev0, Raise e)
  | (m1, ev0, Return _) =>
      match run_block body cancel_at m1 with
      | (m2, ev1, Raise e) =>
          match cm_aexit m2 (Some e) with
          | (m3, ev2, Raise e') =>
              (m3, EvAEnter :: ev0 ++ ev1 ++ EvAExit (Some e) :: ev2, Raise e')
          | (m3, ev2, Return suppress) =>
              (m3, EvAEnter :: ev0 ++ ev1 ++ EvAExit (Some e) :: ev2,
               if truthy suppress then Return tt else Raise e)
          end
      | (m2, ev1, Return _) =>
          match cm_aexit m2 None with
          | (m3, ev2, Raise e') =>
              (m3, EvAEnter :: ev0 ++ ev1 ++ EvAExit None :: ev2, Raise e')
          | (m3, ev2, Return _) =>
              (m3, EvAEnter :: ev0 ++ ev1 ++ EvAExit None :: ev2, Return tt)
          end
      end
  end.

(** [a / b] on integers.  Python gives the quotient as a float; it is kept
    here as the exact rational. *)
Definition truediv (a b : Z) : result Q :=
  if b =? 0
  then Raise {| exc_type := ZeroDivisionError; exc_msg := "division by zero" |}
  else Return (inject_Z a / inject_Z b)%Q.

(** An expression statement: the value is dropped. *)
Definition discard {A : Type} (r : result A) : result unit :=
  match r with
  | Return _ => Return tt
  | Raise e => Raise e
  end.

(** The block of cell 10: [acm.resource_used = True; 1/0]. *)
Definition cell_10_block : list (stmt AsyncContextManager.t) :=
  [ Exec (fun acm =>
            ({| AsyncContextManager.exclusive_resource :=
                  AsyncContextManager.exclusive_resource acm;
                AsyncContextManager.resource_used := Some true |}, Return tt));
    Exec (fun acm => (acm, discard (truediv 1 0))) ].

(** Cell 10: [acm = AsyncContextManager()];
    [try: async with acm: ... except Exception as exc: print(exc)]. *)
Definition cell_10 : list event * result unit :=
  let acm := AsyncContextManager.__init__ PyNone in
  match async_with acm cell_10_block None with
  | (_, ev, Raise exc) =>
      if is_Exception (exc_type exc)
      then (ev ++ [EvPrint (exc_msg exc) newline], Return tt)
      else (ev, Raise exc)
  | (_, ev, Return _) => (ev, Return tt)
  end.

(** ** Cells 12, 13 and 15: what [inspect] tells apart

    The objects of these cells are told apart by their type and, for
    functions and generators, by the flags of their code object.  The
    predicates follow the [inspect], [types], [collections.abc] and
    [asyncio.coroutines] modules of CPython 3.7, the version the notebook
    was run on. *)

Module Inspect.

Definition CO_OPTIMIZED : Z := 1.
Definition CO_NEWLOCALS : Z := 2.
Definition CO_VARARGS : Z := 4.
Definition CO_VARKEYWORDS : Z := 8.
Definition CO_NESTED : Z := 16.
Definition CO_GENERATOR : Z := 32.
Definition CO_NOFREE : Z := 64.
Definition CO_COROUTINE : Z := 128.
Definition CO_ITERABLE_COROUTINE : Z := 256.

Inductive pyobject : Type :=
| Function (co_flags : Z)                 (* types.FunctionType, __code__.co_flags *)
| CoroutineObject                         (* types.CoroutineType *)
| GeneratorObject (gi_code_co_flags : Z)  (* types.GeneratorType *)
| Instance (class_dict : list string).    (* instance of a class defining these names *)

(** [flags & flag] as a truth value. *)
Definition has_flag (flags flag : Z) : bool := negb (Z.land flags flag =? 0).

(** The code flags the compiler gives a function defined at the top level
    of a cell with [def] or [async def], with or without a [yield] in its
    body (no [async def] of these cells has one). *)
Definition def (is_async has_yield : bool) : pyobject :=
  let base := Z.lor CO_OPTIMIZED (Z.lor CO_NEWLOCALS CO_NOFREE) in
  Function
    (if is_async then Z.lor base CO_COROUTINE
     else if has_yield then Z.lor base CO_GENERATOR
     else base).

(** Calling a coroutine function or a generator function runs none of its
    body and returns the coroutine or generator object. *)
Definition call (f : pyobject) : option pyobject :=
  match f with
  | Function flags =>
      if has_flag flags CO_COROUTINE then Some CoroutineObject
      else if has_flag flags CO_GENERATOR then Some (GeneratorObject flags)
      else None
  | _ => None
  end.

(** The names a type defines, as far as these cells look them up. *)
Definition type_dict (o : pyobject) : list string :=
  match o with
  | Function _ => ["__call__"; "__get__"]
  | CoroutineObject => ["__await__"; "send"; "throw"; "close"]
  | GeneratorObject _ => ["__iter__"; "__next__"; "send"; "throw"; "close"]
  | Instance class_dict => class_dict
  end.

(** [isinstance(o, collections.abc.Awaitable)]: the subclass hook looks for
    [__await__] on the type. *)
Definition isinstance_Awaitable (o : pyobject) : bool :=
  existsb (String.eqb "__await__") (type_dict o).

(** [inspect.iscoroutine]: [isinstance(o, types.CoroutineType)]. *)
Definition iscoroutine (o : pyobject) : bool :=
  match o with
  | CoroutineObject => true
  | _ => false
  end.

(** [inspect.iscoroutinefunction]: a function whose code has
    [CO_COROUTINE]. *)
Definition iscoroutinefunction (o : pyobject) : bool :=
  match o with
  | Function flags => has_flag flags CO_COROUTINE
  | _ => false
  end.

(** [inspect.isgeneratorfunction]. *)
Definition isgeneratorfunction (o : pyobject) : bool :=
  match o with
  | Function flags => has_flag flags CO_GENERATOR
  | _ => false
  end.

(** [inspect.isawaitable]: a coroutine, or a generator whose code has
    [CO_ITERABLE_COROUTINE], or an instance of [Awaitable]. *)
Definition isawaitable (o : pyobject) : bool :=
  iscoroutine o
  || match o with
     | GeneratorObject flags => has_flag flags CO_ITERABLE_COROUTINE
     | _ => false
     end
  || isinstance_Awaitable o.

(** [types.coroutine]: a generator function gets [CO_ITERABLE_COROUTINE]
    added to its code flags; a function that already has it, or is a native
    coroutine function, is returned as it is; anything else is wrapped in a
    plain function. *)
Definition types_coroutine (f : pyobject) : pyobject :=
  let wrapped :=
    Function (Z.lor CO_OPTIMIZED (Z.lor CO_NEWLOCALS
               (Z.lor CO_VARARGS (Z.lor CO_VARKEYWORDS CO_NESTED)))) in
  match f with
  | Function flags =>
      if has_flag flags (Z.lor CO_COROUTINE CO_ITERABLE_COROUTINE) then f
      else if has_flag flags CO_GENERATOR
           then Function (Z.lor flags CO_ITERABLE_COROUTINE)
           else wrapped
  | _ => wrapped
  end.

(** [@asyncio.coroutine], debug mode off: a coroutine function is returned
    as it is; a generator function goes through [types.coroutine]; any
    other callable is first wrapped in a generator function. *)
Definition asyncio_coroutine (func : pyobject) : pyobject :=
  if iscoroutinefunction func then func
  else
    let coro :=
      if isgeneratorfunction func then func
      else Function (Z.lor CO_OPTIMIZED (Z.lor CO_NEWLOCALS
                      (Z.lor CO_VARARGS (Z.lor CO_VARKEYWORDS
                        (Z.lor CO_NESTED CO_GENERATOR))))) in
    types_coroutine coro.

(** Cell 12: [FutureLike()], a class with [__init__], [_wrapped] and a
    plain [def __await__]. *)
Definition FLO : pyobject := Instance ["__init__"; "_wrapped"; "__await__"].

(** Cell 13: [async def native_coroutine_function(): return 1893] and the
    object a call of it returns. *)
Definition NCF : pyobject := def true false.
Definition NCO : option pyobject := call NCF.

(** Cell 15: [@asyncio.coroutine def generator_based_coroutine_function()],
    with a [yield from] in its body, and the object a call of it returns. *)
Definition GBCF : pyobject := asyncio_coroutine (def false true).
Definition GBCO : option pyobject := call GBCF.

(** The three predicates of the table: is-coroutine-callable,
    is-started-task, is-generic-awaitable. *)
Definition classify (o : pyobject) : bool * bool * bool :=
  (iscoroutinefunction o, iscoroutine o, isawaitable o).

(** The assertions of the three cells, in order. *)
Definition cell_12_asserts : list bool :=
  [ negb (iscoroutine FLO); negb (iscoroutinefunction FLO);
    isawaitable FLO; isinstance_Awaitable FLO ].

Definition cell_13_asserts : option (list bool) :=
  match NCO with
  | Some nco =>
      Some [ negb (iscoroutine NCF); iscoroutinefunction NCF;
             negb (isawaitable NCF); negb (isinstance_Awaitable NCF);
             iscoroutine nco; negb (iscoroutinefunction nco);
             isawaitable nco; isinstance_Awaitable nco ]
  | None => None
  end.

Definition cell_15_asserts : option (list bool) :=
  match GBCO with
  | Some gbco =>
      Some [ negb (iscoroutine GBCF); negb (iscoroutinefunction GBCF);
             negb (isawaitable GBCF); negb (isinstance_Awaitable GBCF);
             negb (iscoroutine gbco); negb (iscoroutinefunction gbco);
             isawaitable gbco; negb (isinstance_Awaitable gbco) ]
  | None => None
  end.

End Inspect.

(** * Part II: vocabulary of the statements *)

(** The sequence [1, 2, ..., L]; empty when [L <= 0]. *)
Definition one_to (L : Z) : list Z := map Z.of_nat (seq 1 (Z.to_nat L)).

(** [a, a+1, ..., a+m-1]. *)
Definition count_from (a : Z) (m : nat) : list Z :=
  map (fun i => a + Z.of_nat i) (seq 0 m).

(** A created frame has not bound [n] yet (it will start from 0); a closed
    one left its loop, so its cursor is at or past the bound. *)
Definition agf_inv (f : async_gen_func.t) : Prop :=
  match async_gen_func.state f with
  | GenCreated => async_gen_func.n f = 0
  | GenSuspended => True
  | GenClosed => async_gen_func.limit f <= async_gen_func.n f
  end.

(** Cursor and limit of the instance a generator of [AsyncIterable] runs on. *)
Definition aig_cur (g : AsyncIterable.gen) : Z :=
  AsyncIterable.n (AsyncIterable.self g).
Definition aig_lim (g : AsyncIterable.gen) : Z :=
  AsyncIterable.limit (AsyncIterable.self g).

(** A closed generator of an [AsyncIterable] left its loop with the cursor
    at or past the bound. *)
Definition aig_inv (g : AsyncIterable.gen) : Prop :=
  match AsyncIterable.state g with
  | GenClosed => aig_lim g <= aig_cur g
  | _ => True
  end.

(** Case split on every integer comparison of the goal. *)
Ltac ltb_cases :=
  repeat match goal with
    | |- context [?a <? ?b] => destruct (Z.ltb_spec a b)
    | |- context [?a >? ?b] => rewrite (Z.gtb_ltb a b)
    end.

(** The state reached by receiving item 1 from [AsyncIterable(3)]. *)
Definition received_1_of_3 : AsyncIterable.gen :=
  {| AsyncIterable.self := {| AsyncIterable.n := 1; AsyncIterable.limit := 3 |};
     AsyncIterable.state := GenSuspended |}.

(** [True] when an awaited call ended in the exhaustion signal. *)
Definition raised_stop {A : Type} (r : result A) : bool :=
  match r with
  | Raise e => exc_class_eqb (exc_type e) StopAsyncIteration
  | Return _ => false
  end.

(** How many times the task was suspended on [asyncio.sleep]. *)
Definition count_sleeps (tr : list event) : nat :=
  List.length (filter (fun e => match e with EvSleep => true | _ => false end) tr).

Definition is_aexit (e : event) : bool :=
  match e with EvAExit _ => true | _ => false end.

(** How many times [__aexit__] was awaited. *)
Definition count_aexit (tr : list event) : nat := List.length (filter is_aexit tr).

(** What [__aexit__] is handed: nothing after a normal end, the exception
    otherwise. *)
Definition exc_info {A : Type} (r : result A) : option exception :=
  match r with
  | Return _ => None
  | Raise e => Some e
  end.

(** Two more guarded blocks: one suspends once and ends normally, the
    other suspends twice. *)
Definition block_normal : list (stmt AsyncContextManager.t) :=
  [AwaitSleep; Exec (fun acm => (acm, Return tt))].

Definition block_suspending : list (stmt AsyncContextManager.t) :=
  [Exec (fun acm => (acm, Return tt)); AwaitSleep; AwaitSleep;
   Exec (fun acm => (acm, Return tt))].

(** A manager that is not in the notebook, whose exit returns [True]. *)
Definition swallowing_cm : AsyncCM unit :=
  {| cm_aenter := fun u => (u, [], Return PyNone);
     cm_aexit := fun u _ => (u, [], Return (PyBool true)) |}.

(** ** Cell 12: awaiting a [FutureLike] *)

Module FutureLike.

Section WithDuration.

(** What [asyncio.sleep] is given: a number of seconds, 0.1 by default. *)
Variable duration : Type.

Record t : Type := { t_sleep : duration }.

Definition __init__ (sleep : duration) : t := {| t_sleep := sleep |}.

(** [await asyncio.sleep(self.t_sleep); return 1871]: the coroutine of one
    call, run to its end; the list holds the sleeps it asked for. *)
Definition _wrapped (self : t) : t * list duration * result Z :=
  (self, [t_sleep self], Return 1871).

(** [return self._wrapped().__await__()]: each [await] of the instance
    drives a new [_wrapped()] coroutine. *)
Definition __await__ (self : t) : t * list duration * result Z :=
  _wrapped self.

End WithDuration.

End FutureLike.

(** ** Calls in sequence and shared instances *)

(** A consumer making one call after the other on the same object: the
    state is threaded, the events are put end to end, the results are
    collected in order. *)
Fixpoint run_calls {S V A E : Type} (call : V -> S -> S * list E * result A)
  (args : list V) (s : S) : S * list E * list (result A) :=
  match args with
  | [] => (s, [], [])
  | v :: rest =>
      let '(s1, ev1, r1) := call v s in
      let '(s2, ev2, rs) := run_calls call rest s1 in
      (s2, ev1 ++ ev2, r1 :: rs)
  end.

(** One [AsyncIterable] instance and the generators [__aiter__] made on it,
    numbered: every frame refers to the same [self]. *)
Record shared : Type := {
  sh_self : AsyncIterable.t;
  sh_gens : nat -> gen_state
}.

(** A new instance; no generator made on it has started. *)
Definition shared_init (limit : Z) : shared :=
  {| sh_self := AsyncIterable.__init__ limit; sh_gens := fun _ => GenCreated |}.

(** [await gens[i].__anext__()]: the step reads and writes the one
    instance; only generator [i] moves. *)
Definition shared_anext (i : nat) (st : shared) : awaited shared Z :=
  let '(g', ev, r) :=
    AsyncIterable.__anext__
      {| AsyncIterable.self := sh_self st; AsyncIterable.state := sh_gens st i |} in
  ({| sh_self := AsyncIterable.self g';
      sh_gens := fun j => if Nat.eqb j i then AsyncIterable.state g' else sh_gens st j |},
   ev, r).

(** The exception of a bare [raise StopAsyncIteration]. *)
Definition stop_iteration : exception :=
  {| exc_type := StopAsyncIteration; exc_msg := EmptyString |}.

(** What the [k]-th production step of a fresh producer of limit [L]
    gives. *)
Definition kth_result (L k : Z) : result Z :=
  if k <=? L then Return k else Raise stop_iteration.

(** How many times [__aenter__] was awaited. *)
Definition count_aenter (tr : list event) : nat :=
  List.length (filter (fun e => match e with EvAEnter => true | _ => false end) tr).

(** One [async with acm: ...] statement of a series on the same manager:
    its block and where, if anywhere, the task is cancelled in it. *)
Definition scope_on (scope : list (stmt AsyncContextManager.t) * option nat)
  (acm : AsyncContextManager.t) : awaited AsyncContextManager.t unit :=
  async_with acm (fst scope) (snd scope).

(** * Part III: facts, examples and the claims *)

(** ** The recorded runs of [demo_ag] *)

(** Cells 5 to 7, with the outputs the notebook records. *)
Example cell_5 :
  option_map (fun r => (render (fst r), snd r))
    (demo_ag (H := async_gen_func_callable) 10 3)
  = Some (("manual: 1, 2, 3, done" ++ newline ++
           "magic : 1, 2, 3, done" ++ newline)%string, Return tt).
Proof. vm_compute. reflexivity. Qed.

Example cell_6 :
  option_map (fun r => (render (fst r), snd r))
    (demo_ag (H := AsyncIterable_callable) 10 4)
  = Some (("manual: 1, 2, 3, 4, done" ++ newline ++
           "magic : 1, 2, 3, 4, done" ++ newline)%string, Return tt).
Proof. vm_compute. reflexivity. Qed.

Example cell_7 :
  option_map (fun r => (render (fst r), snd r))
    (demo_ag (H := AsyncIterator_callable) 10 5)
  = Some (("manual: 1, 2, 3, 4, 5, done" ++ newline ++
           "magic : 1, 2, 3, 4, 5, done" ++ newline)%string, Return tt).
Proof. vm_compute. reflexivity. Qed.

(** ** Sequences and traces *)

Lemma count_from_S (a : Z) (m : nat) :
  count_from a (S m) = a :: count_from (a + 1) m.
Proof.
  unfold count_from. simpl. rewrite Z.add_0_r. f_equal.
  rewrite <- seq_shift, map_map. apply map_ext. intros i. lia.
Qed.

Lemma one_to_count_from (L : Z) : one_to L = count_from 1 (Z.to_nat L).
Proof.
  unfold one_to, count_from. rewrite <- seq_shift, map_map.
  apply map_ext. intros i. lia.
Qed.

Lemma count_from_length (a : Z) (m : nat) : List.length (count_from a m) = m.
Proof. unfold count_from. now rewrite length_map, length_seq. Qed.

Lemma stdout_app (a b : list event) : stdout (a ++ b) = stdout a ++ stdout b.
Proof. apply filter_app. Qed.

(** ** The driver loop *)

Section DriverFacts.
Context {Iter Gen : Type} `{AgCallable Iter Gen}.

Lemma while_running_stopped (fuel : nat) (g : Gen) :
  while_running (S fuel) false g = Some (g, [ev_done], Return tt).
Proof. reflexivity. Qed.

(** The loop lets every exception through except the exhaustion signal. *)
Lemma while_running_raise (fuel : nat) :
  forall running g g' tr e,
    while_running fuel running g = Some (g', tr, Raise e) ->
    exc_type e <> StopAsyncIteration.
Proof.
  induction fuel as [|fuel IH]; intros running g g' tr e Hrun; [discriminate|].
  simpl in Hrun. destruct running; [|discriminate].
  destruct (ag_anext g) as [[g1 ev] [target|e1]].
  - destruct (while_running fuel true g1) as [[[g2 tr2] r2]|] eqn:Hrec;
      simpl in Hrun; [|discriminate].
    injection Hrun as -> _ ->. eapply IH; eassumption.
  - destruct (exc_type e1) eqn:Hty.
    + destruct (while_running fuel false g1) as [[[g2 tr2] r2]|] eqn:Hrec;
        simpl in Hrun; [|discriminate].
      injection Hrun as -> _ ->. eapply IH; eassumption.
    + injection Hrun as _ _ <-. congruence.
    + injection Hrun as _ _ <-. congruence.
    + injection Hrun as _ _ <-. congruence.
Qed.

Lemma while_running_on_stop (fuel : nat) (g g' : Gen) ev e :
  ag_anext g = (g', ev, Raise e) ->
  exc_type e = StopAsyncIteration ->
  while_running (S (S fuel)) true g = Some (g', ev ++ [ev_done], Return tt).
Proof.
  intros Hnext Hty.
  change (while_running (S (S fuel)) true g)
    with (match ag_anext g with
          | (g', ev, Raise e) =>
              match exc_type e with
              | StopAsyncIteration => prepend ev (while_running (S fuel) false g')
              | _ => Some (g', ev, Raise e)
              end
          | (g', ev, Return target) =>
              prepend (ev ++ [ev_item target]) (while_running (S fuel) true g')
          end).
  rewrite Hnext, Hty. reflexivity.
Qed.

Lemma while_running_on_item (fuel : nat) (g g' : Gen) ev target :
  ag_anext g = (g', ev, Return target) ->
  while_running (S fuel) true g
  = prepend (ev ++ [ev_item target]) (while_running fuel true g').
Proof. intros Hnext. simpl. rewrite Hnext. reflexivity. Qed.

(** A producer that behaves as a counter: below the bound a step yields
    the successor of the cursor, at or above it the step raises the
    exhaustion signal; neither prints. *)
Variables (cur lim : Gen -> Z) (Inv : Gen -> Prop).

Hypothesis anext_yield : forall g, Inv g -> cur g < lim g ->
  exists g' ev, ag_anext g = (g', ev, Return (cur g + 1)) /\ stdout ev = []
                /\ Inv g' /\ cur g' = cur g + 1 /\ lim g' = lim g.

Hypothesis anext_stop : forall g, Inv g -> lim g <= cur g ->
  exists g' ev e, ag_anext g = (g', ev, Raise e)
                  /\ exc_type e = StopAsyncIteration /\ stdout ev = []
                  /\ Inv g' /\ lim g' = lim g /\ lim g' <= cur g'.

Lemma drain_exhausted (g : Gen) (fuel : nat) :
  Inv g -> lim g <= cur g -> (2 <= fuel)%nat ->
  exists g' tr, while_running fuel true g = Some (g', tr, Return tt)
                /\ stdout tr = [ev_done]
                /\ Inv g' /\ lim g' = lim g /\ lim g' <= cur g'.
Proof.
  intros HI Hle Hfuel.
  destruct (anext_stop g HI Hle) as (g' & ev & e & Hn & Hty & Hev & HI' & Hl & Hc).
  destruct fuel as [|[|fuel]]; try lia.
  exists g', (ev ++ [ev_done]). split; [now apply while_running_on_stop with e|].
  rewrite stdout_app, Hev. auto.
Qed.

Lemma drain_counter (m : nat) :
  forall g fuel,
    Inv g -> Z.to_nat (lim g - cur g) = m -> (m + 2 <= fuel)%nat ->
    exists g' tr, while_running fuel true g = Some (g', tr, Return tt)
                  /\ stdout tr = map ev_item (count_from (cur g + 1) m) ++ [ev_done]
                  /\ Inv g' /\ lim g' = lim g /\ lim g' <= cur g'.
Proof.
  induction m as [|m IH]; intros g fuel HI Hm Hfuel.
  - apply drain_exhausted; auto; lia.
  - destruct (anext_yield g HI ltac:(lia)) as (g1 & ev & Hn & Hev & HI1 & Hc1 & Hl1).
    destruct fuel as [|fuel]; [lia|].
    destruct (IH g1 fuel HI1 ltac:(lia) ltac:(lia))
      as (g' & tr & Hrun & Hout & HI' & Hl' & Hc').
    exists g', ((ev ++ [ev_item (cur g + 1)]) ++ tr).
    split. { rewrite (while_running_on_item _ _ _ _ _ Hn), Hrun. reflexivity. }
    split. { rewrite !stdout_app, Hev, Hout, count_from_S, Hc1. reflexivity. }
    repeat split; auto; congruence.
Qed.

(** With less fuel than production steps plus one the loop is still running. *)
Lemma drain_counter_short (m : nat) :
  forall g fuel,
    Inv g -> Z.to_nat (lim g - cur g) = m -> (fuel <= m + 1)%nat ->
    while_running fuel true g = None.
Proof.
  induction m as [|m IH]; intros g fuel HI Hm Hfuel.
  - destruct (anext_stop g HI ltac:(lia)) as (g' & ev & e & Hn & Hty & _).
    destruct fuel as [|[|fuel]]; try lia; [reflexivity|].
    simpl. rewrite Hn, Hty. reflexivity.
  - destruct (anext_yield g HI ltac:(lia)) as (g1 & ev & Hn & Hev & HI1 & Hc1 & Hl1).
    destruct fuel as [|fuel]; [reflexivity|].
    rewrite (while_running_on_item _ _ _ _ _ Hn), (IH g1 fuel); auto; lia.
Qed.

End DriverFacts.

(** ** The three producers are counters *)

Lemma agf_anext_yield (f : async_gen_func.t) :
  agf_inv f -> async_gen_func.n f < async_gen_func.limit f ->
  exists f' ev,
    ag_anext f = (f', ev, Return (async_gen_func.n f + 1)) /\ stdout ev = []
    /\ agf_inv f' /\ async_gen_func.n f' = async_gen_func.n f + 1
    /\ async_gen_func.limit f' = async_gen_func.limit f.
Proof.
  destruct f as [st n l]. unfold agf_inv. simpl.
  unfold async_gen_func.__anext__, async_gen_func.asend, async_gen_func.loop.
  destruct st; simpl; intros HI Hlt; subst; ltb_cases; try lia;
    eexists _, _; repeat split.
Qed.

Lemma agf_anext_stop (f : async_gen_func.t) :
  agf_inv f -> async_gen_func.limit f <= async_gen_func.n f ->
  exists f' ev e,
    ag_anext f = (f', ev, Raise e) /\ exc_type e = StopAsyncIteration
    /\ stdout ev = [] /\ agf_inv f'
    /\ async_gen_func.limit f' = async_gen_func.limit f
    /\ async_gen_func.limit f' <= async_gen_func.n f'.
Proof.
  destruct f as [st n l]. unfold agf_inv. simpl.
  unfold async_gen_func.__anext__, async_gen_func.asend, async_gen_func.loop.
  destruct st; simpl; intros HI Hle; subst; ltb_cases; try lia;
    eexists _, _, _; repeat split; simpl; auto.
Qed.

Lemma aig_anext_yield (g : AsyncIterable.gen) :
  aig_inv g -> aig_cur g < aig_lim g ->
  exists g' ev,
    ag_anext g = (g', ev, Return (aig_cur g + 1)) /\ stdout ev = []
    /\ aig_inv g' /\ aig_cur g' = aig_cur g + 1 /\ aig_lim g' = aig_lim g.
Proof.
  destruct g as [[n l] st]. unfold aig_inv, aig_cur, aig_lim. simpl.
  unfold AsyncIterable.__anext__, AsyncIterable.asend, AsyncIterable.loop.
  destruct st; simpl; intros HI Hlt; ltb_cases; try lia;
    eexists _, _; repeat split; simpl; auto.
Qed.

Lemma aig_anext_stop (g : AsyncIterable.gen) :
  aig_inv g -> aig_lim g <= aig_cur g ->
  exists g' ev e,
    ag_anext g = (g', ev, Raise e) /\ exc_type e = StopAsyncIteration
    /\ stdout ev = [] /\ aig_inv g'
    /\ aig_lim g' = aig_lim g /\ aig_lim g' <= aig_cur g'.
Proof.
  destruct g as [[n l] st]. unfold aig_inv, aig_cur, aig_lim. simpl.
  unfold AsyncIterable.__anext__, AsyncIterable.asend, AsyncIterable.loop.
  destruct st; simpl; intros HI Hle; ltb_cases; try lia;
    eexists _, _, _; repeat split; simpl; auto.
Qed.

Lemma ait_anext_yield (it : AsyncIterator.t) :
  True -> AsyncIterator.n it < AsyncIterator.limit it ->
  exists it' ev,
    ag_anext it = (it', ev, Return (AsyncIterator.n it + 1)) /\ stdout ev = []
    /\ True /\ AsyncIterator.n it' = AsyncIterator.n it + 1
    /\ AsyncIterator.limit it' = AsyncIterator.limit it.
Proof.
  destruct it as [n l]. simpl. unfold AsyncIterator.__anext__. simpl.
  intros _ Hlt. ltb_cases; try lia. eexists _, _; repeat split.
Qed.

Lemma ait_anext_stop (it : AsyncIterator.t) :
  True -> AsyncIterator.limit it <= AsyncIterator.n it ->
  exists it' ev e,
    ag_anext it = (it', ev, Raise e) /\ exc_type e = StopAsyncIteration
    /\ stdout ev = [] /\ True
    /\ AsyncIterator.limit it' = AsyncIterator.limit it
    /\ AsyncIterator.limit it' <= AsyncIterator.n it'.
Proof.
  destruct it as [n l]. simpl. unfold AsyncIterator.__anext__. simpl.
  intros _ Hle. ltb_cases; try lia. eexists _, _, _; repeat split; simpl; lia.
Qed.

(** Draining each producer from its start: [Z.to_nat L + 2] units of fuel
    are enough and [Z.to_nat L + 1] are not. *)
Lemma agf_drain (L : Z) (fuel : nat) :
  (Z.to_nat L + 2 <= fuel)%nat ->
  exists f' tr,
    manual (H := async_gen_func_callable) fuel L = Some (f', tr, Return tt)
    /\ stdout tr = map ev_item (one_to L) ++ [ev_done]
    /\ agf_inv f' /\ async_gen_func.limit f' = L
    /\ async_gen_func.limit f' <= async_gen_func.n f'.
Proof.
  intros Hfuel. rewrite one_to_count_from.
  apply (drain_counter _ _ agf_inv agf_anext_yield agf_anext_stop
           (Z.to_nat L) (async_gen_func.call L) fuel); simpl; auto.
  - reflexivity.
  - f_equal; lia.
Qed.

Lemma aig_drain (L : Z) (fuel : nat) :
  (Z.to_nat L + 2 <= fuel)%nat ->
  exists g' tr,
    manual (H := AsyncIterable_callable) fuel L = Some (g', tr, Return tt)
    /\ stdout tr = map ev_item (one_to L) ++ [ev_done]
    /\ aig_inv g' /\ aig_lim g' = L /\ aig_lim g' <= aig_cur g'.
Proof.
  intros Hfuel. rewrite one_to_count_from.
  apply (drain_counter _ _ aig_inv aig_anext_yield aig_anext_stop
           (Z.to_nat L) (AsyncIterable.__aiter__ (AsyncIterable.__init__ L)) fuel);
    simpl; auto.
  - exact I.
  - unfold aig_lim, aig_cur; simpl. f_equal; lia.
Qed.

Lemma ait_drain (L : Z) (fuel : nat) :
  (Z.to_nat L + 2 <= fuel)%nat ->
  exists it' tr,
    manual (H := AsyncIterator_callable) fuel L = Some (it', tr, Return tt)
    /\ stdout tr = map ev_item (one_to L) ++ [ev_done]
    /\ True /\ AsyncIterator.limit it' = L
    /\ AsyncIterator.limit it' <= AsyncIterator.n it'.
Proof.
  intros Hfuel. rewrite one_to_count_from.
  apply (drain_counter _ _ (fun _ => True) ait_anext_yield ait_anext_stop
           (Z.to_nat L) (AsyncIterator.__init__ L) fuel); simpl; auto.
  f_equal; lia.
Qed.

Lemma agf_drain_short (L : Z) (fuel : nat) :
  (fuel <= Z.to_nat L + 1)%nat ->
  manual (H := async_gen_func_callable) fuel L = None.
Proof.
  intros Hfuel.
  apply (drain_counter_short _ _ agf_inv agf_anext_yield agf_anext_stop
           (Z.to_nat L) (async_gen_func.call L) fuel); simpl; auto.
  - reflexivity.
  - f_equal; lia.
Qed.

Lemma aig_drain_short (L : Z) (fuel : nat) :
  (fuel <= Z.to_nat L + 1)%nat ->
  manual (H := AsyncIterable_callable) fuel L = None.
Proof.
  intros Hfuel.
  apply (drain_counter_short _ _ aig_inv aig_anext_yield aig_anext_stop
           (Z.to_nat L) (AsyncIterable.__aiter__ (AsyncIterable.__init__ L)) fuel);
    simpl; auto.
  - exact I.
  - unfold aig_lim, aig_cur; simpl. f_equal; lia.
Qed.

Lemma ait_drain_short (L : Z) (fuel : nat) :
  (fuel <= Z.to_nat L + 1)%nat ->
  manual (H := AsyncIterator_callable) fuel L = None.
Proof.
  intros Hfuel.
  apply (drain_counter_short _ _ (fun _ => True) ait_anext_yield ait_anext_stop
           (Z.to_nat L) (AsyncIterator.__init__ L) fuel); simpl; auto.
  f_equal; lia.
Qed.

Lemma one_to_length (L : Z) : Z.of_nat (List.length (one_to L)) = Z.max L 0.
Proof. unfold one_to. rewrite length_map, length_seq. lia. Qed.

Lemma render_stdout (tr : list event) : render (stdout tr) = render tr.
Proof.
  induction tr as [|[| text end_ | |exc] tr IH]; simpl; auto.
  now rewrite IH.
Qed.

(** ** The sequence claims *)

(** C1. For every limit [L >= 0], draining [async_gen_func(L)] to the end
    with [async for] (no value is sent in) prints exactly the items
    1, 2, ..., L in order, [L] of them, then the marker [done], and ends
    normally; [demo_ag(async_gen_func, L)] prints that line twice, once per
    half. *)
Theorem async_gen_func_yields_one_to_limit (L : Z) (HL : 0 <= L) :
  exists fuel0 : nat, forall fuel : nat, (fuel0 <= fuel)%nat ->
    (exists f' tr,
        async_for fuel (async_gen_func.call L) = Some (f', tr, Return tt)
        /\ stdout tr = map ev_item (one_to L) ++ [ev_done]
        /\ Z.of_nat (List.length (one_to L)) = L)
    /\ (exists tr,
        demo_ag (H := async_gen_func_callable) fuel L = Some (tr, Return tt)
        /\ stdout tr = EvPrint "manual: " EmptyString :: (map ev_item (one_to L) ++ [ev_done])
                       ++ EvPrint "magic : " EmptyString :: (map ev_item (one_to L) ++ [ev_done])).
Proof.
  exists (Z.to_nat L + 2)%nat. intros fuel Hfuel.
  destruct (agf_drain L fuel Hfuel) as (f' & tr & Hrun & Hout & _).
  split.
  - exists f', tr. repeat split; auto. rewrite one_to_length. lia.
  - exists (EvPrint "manual: " EmptyString :: tr ++ EvPrint "magic : " EmptyString :: tr).
    unfold demo_ag, async_for. rewrite Hrun.
    change (while_running fuel true (ag_aiter (async_gen_func.call L)))
      with (manual (H := async_gen_func_callable) fuel L).
    rewrite Hrun. split; [reflexivity|].
    change (stdout (EvPrint "manual: " EmptyString :: tr ++ EvPrint "magic : " EmptyString :: tr))
      with (EvPrint "manual: " EmptyString :: stdout (tr ++ EvPrint "magic : " EmptyString :: tr)).
    rewrite stdout_app.
    change (stdout (EvPrint "magic : " EmptyString :: tr))
      with (EvPrint "magic : " EmptyString :: stdout tr).
    now rewrite Hout.
Qed.

Lemma async_gen_func_yields_one_to_limit_witness :
  0 <= 3 /\
  exists fuel0 : nat, forall fuel : nat, (fuel0 <= fuel)%nat ->
    (exists f' tr,
        async_for fuel (async_gen_func.call 3) = Some (f', tr, Return tt)
        /\ stdout tr = map ev_item (one_to 3) ++ [ev_done]
        /\ Z.of_nat (List.length (one_to 3)) = 3)
    /\ (exists tr,
        demo_ag (H := async_gen_func_callable) fuel 3 = Some (tr, Return tt)
        /\ stdout tr = EvPrint "manual: " EmptyString :: (map ev_item (one_to 3) ++ [ev_done])
                       ++ EvPrint "magic : " EmptyString :: (map ev_item (one_to 3) ++ [ev_done])).
Proof.
  split; [lia | apply (async_gen_func_yields_one_to_limit 3); lia].
Defined.

(** C5. For every limit [L] the async generator function, [AsyncIterable]
    and [AsyncIterator], each drained to the end by the same loop with no
    value sent in, print the same items 1, 2, ..., L followed by [done] and
    end normally: the three cannot be told apart by what the drain shows. *)
Theorem producers_drain_alike (L : Z) :
  exists fuel0 : nat, forall fuel : nat, (fuel0 <= fuel)%nat ->
    exists f1 g2 it3 tr1 tr2 tr3,
      manual (H := async_gen_func_callable) fuel L = Some (f1, tr1, Return tt)
      /\ manual (H := AsyncIterable_callable) fuel L = Some (g2, tr2, Return tt)
      /\ manual (H := AsyncIterator_callable) fuel L = Some (it3, tr3, Return tt)
      /\ stdout tr1 = map ev_item (one_to L) ++ [ev_done]
      /\ stdout tr2 = stdout tr1 /\ stdout tr3 = stdout tr1
      /\ render tr2 = render tr1 /\ render tr3 = render tr1.
Proof.
  exists (Z.to_nat L + 2)%nat. intros fuel Hfuel.
  destruct (agf_drain L fuel Hfuel) as (f1 & tr1 & Hrun1 & Hout1 & _).
  destruct (aig_drain L fuel Hfuel) as (g2 & tr2 & Hrun2 & Hout2 & _).
  destruct (ait_drain L fuel Hfuel) as (it3 & tr3 & Hrun3 & Hout3 & _).
  exists f1, g2, it3, tr1, tr2, tr3.
  repeat split; auto; try congruence.
  - rewrite <- (render_stdout tr2), <- (render_stdout tr1). congruence.
  - rewrite <- (render_stdout tr3), <- (render_stdout tr1). congruence.
Qed.

(** What the drain does not show: the generators sleep once, before their
    first item; [AsyncIterator] sleeps at every step. *)
Example producers_sleep_differently :
  option_map (fun r => count_sleeps (snd (fst r)))
    (manual (H := async_gen_func_callable) 10 2) = Some 1%nat
  /\ option_map (fun r => count_sleeps (snd (fst r)))
       (manual (H := AsyncIterable_callable) 10 2) = Some 1%nat
  /\ option_map (fun r => count_sleeps (snd (fst r)))
       (manual (H := AsyncIterator_callable) 10 2) = Some 3%nat.
Proof. repeat split. Qed.

(** C9. For every integer limit, also zero or negative, each of the three
    producers drained with no value sent in stops: the loop ends normally
    after exactly [max(limit, 0) + 1] production steps, the last of which
    raises the exhaustion signal, and [max(limit, 0)] items were printed
    before [done] (none when the limit is not positive). *)
Theorem drain_terminates_with_max_limit_items (L : Z) :
  let m := Z.to_nat (Z.max L 0) in
  (exists f' tr items,
      manual (H := async_gen_func_callable) (m + 2) L = Some (f', tr, Return tt)
      /\ stdout tr = map ev_item items ++ [ev_done]
      /\ Z.of_nat (List.length items) = Z.max L 0)
  /\ manual (H := async_gen_func_callable) (m + 1) L = None
  /\ (exists g' tr items,
      manual (H := AsyncIterable_callable) (m + 2) L = Some (g', tr, Return tt)
      /\ stdout tr = map ev_item items ++ [ev_done]
      /\ Z.of_nat (List.length items) = Z.max L 0)
  /\ manual (H := AsyncIterable_callable) (m + 1) L = None
  /\ (exists it' tr items,
      manual (H := AsyncIterator_callable) (m + 2) L = Some (it', tr, Return tt)
      /\ stdout tr = map ev_item items ++ [ev_done]
      /\ Z.of_nat (List.length items) = Z.max L 0)
  /\ manual (H := AsyncIterator_callable) (m + 1) L = None.
Proof.
  intros m. assert (Hm : m = Z.to_nat L) by (unfold m; lia).
  destruct (agf_drain L (m + 2) ltac:(lia)) as (f1 & tr1 & Hrun1 & Hout1 & _).
  destruct (aig_drain L (m + 2) ltac:(lia)) as (g2 & tr2 & Hrun2 & Hout2 & _).
  destruct (ait_drain L (m + 2) ltac:(lia)) as (it3 & tr3 & Hrun3 & Hout3 & _).
  repeat split.
  - exists f1, tr1, (one_to L). auto using one_to_length.
  - apply agf_drain_short. lia.
  - exists g2, tr2, (one_to L). auto using one_to_length.
  - apply aig_drain_short. lia.
  - exists it3, tr3, (one_to L). auto using one_to_length.
  - apply ait_drain_short. lia.
Qed.

(** C7. The exhaustion signal never leaves the loop.  For every producer:
    a run of the driver loop that ends in an exception does not end in
    [StopAsyncIteration]; the same holds for the caller [demo_ag]; and when
    the produce-next step at a state raises [StopAsyncIteration], the loop
    started there ends normally, having only printed [done] after the
    events of that step. *)
Theorem exhaustion_signal_stays_inside_loop
  {Iter Gen : Type} `{AgCallable Iter Gen} (fuel : nat) (running : bool) (g : Gen) :
  (forall g' tr e,
      while_running fuel running g = Some (g', tr, Raise e) ->
      exc_type e <> StopAsyncIteration)
  /\ (forall limit tr e,
      demo_ag fuel limit = Some (tr, Raise e) ->
      exc_type e <> StopAsyncIteration)
  /\ (forall g' ev e,
      ag_anext g = (g', ev, Raise e) ->
      exc_type e = StopAsyncIteration ->
      while_running (S (S fuel)) true g = Some (g', ev ++ [ev_done], Return tt)).
Proof.
  split; [|split].
  - intros g' tr e. apply while_running_raise.
  - intros limit tr e. unfold demo_ag, manual, async_for.
    destruct (while_running fuel true (ag_aiter (ag_call limit)))
      as [[[g1 tr1] [[]|e1]]|] eqn:Hman; try discriminate.
    + destruct (while_running fuel true (ag_aiter (async_gen_func.call limit)))
        as [[[g2 tr2] r2]|] eqn:Hmagic; try discriminate.
      intros Heq. inversion Heq; subst.
      exact (while_running_raise (H := async_gen_func_callable) _ _ _ _ _ _ Hmagic).
    + intros Heq. inversion Heq; subst.
      eapply while_running_raise; eassumption.
  - intros g' ev e. apply while_running_on_stop.
Qed.

Lemma exhaustion_signal_stays_inside_loop_witness :
  AsyncIterator.__anext__ {| AsyncIterator.n := 5; AsyncIterator.limit := 5 |}
  = ({| AsyncIterator.n := 6; AsyncIterator.limit := 5 |}, [EvSleep],
     Raise {| exc_type := StopAsyncIteration; exc_msg := EmptyString |})
  /\ while_running (H := AsyncIterator_callable) 2 true
       {| AsyncIterator.n := 5; AsyncIterator.limit := 5 |}
     = Some ({| AsyncIterator.n := 6; AsyncIterator.limit := 5 |},
             [EvSleep; ev_done], Return tt).
Proof.
  split; [reflexivity|].
  apply (proj2 (proj2 (exhaustion_signal_stays_inside_loop (H := AsyncIterator_callable)
                  0 true {| AsyncIterator.n := 5; AsyncIterator.limit := 5 |}))
           {| AsyncIterator.n := 6; AsyncIterator.limit := 5 |} [EvSleep]
           {| exc_type := StopAsyncIteration; exc_msg := EmptyString |});
    reflexivity.
Defined.

(** C10. [AsyncIterable] and [AsyncIterator] keep the cursor on the
    instance.  After one full drain the cursor is at or past the limit, and
    a second [async for] over the same instance prints no item, only
    [done], and ends normally. *)
Theorem stateful_producers_are_single_use (L : Z) :
  (exists fuel0 : nat, forall fuel : nat, (fuel0 <= fuel)%nat ->
     exists g1 tr1,
       manual (H := AsyncIterable_callable) fuel L = Some (g1, tr1, Return tt)
       /\ AsyncIterable.limit (AsyncIterable.self g1)
          <= AsyncIterable.n (AsyncIterable.self g1)
       /\ forall fuel2 : nat, (2 <= fuel2)%nat ->
          exists g2 tr2,
            async_for (H := AsyncIterable_callable) fuel2 (AsyncIterable.self g1)
            = Some (g2, tr2, Return tt)
            /\ stdout tr2 = [ev_done])
  /\ (exists fuel0 : nat, forall fuel : nat, (fuel0 <= fuel)%nat ->
     exists it1 tr1,
       manual (H := AsyncIterator_callable) fuel L = Some (it1, tr1, Return tt)
       /\ AsyncIterator.limit it1 <= AsyncIterator.n it1
       /\ forall fuel2 : nat, (2 <= fuel2)%nat ->
          exists it2 tr2,
            async_for (H := AsyncIterator_callable) fuel2 it1
            = Some (it2, tr2, Return tt)
            /\ stdout tr2 = [ev_done]).
Proof.
  split; exists (Z.to_nat L + 2)%nat; intros fuel Hfuel.
  - destruct (aig_drain L fuel Hfuel) as (g1 & tr1 & Hrun & _ & _ & _ & Hle).
    exists g1, tr1. repeat split; auto.
    intros fuel2 Hfuel2.
    destruct (drain_exhausted _ _ aig_inv aig_anext_stop
                (AsyncIterable.__aiter__ (AsyncIterable.self g1)) fuel2)
      as (g2 & tr2 & Hrun2 & Hout2 & _); auto.
    + exact I.
    + exists g2, tr2. auto.
  - destruct (ait_drain L fuel Hfuel) as (it1 & tr1 & Hrun & _ & _ & _ & Hle).
    exists it1, tr1. repeat split; auto.
    intros fuel2 Hfuel2.
    destruct (drain_exhausted _ _ (fun _ => True) ait_anext_stop it1 fuel2)
      as (it2 & tr2 & Hrun2 & Hout2 & _); auto.
    exists it2, tr2. auto.
Qed.

(** ** Sending a value into the generator of [AsyncIterable] *)

(** A generator that has just handed out an item is suspended at its
    [yield], and the item is the cursor. *)
Lemma aig_received (value : option Z) (g0 g : AsyncIterable.gen)
  (ev : list event) (k : Z) :
  AsyncIterable.asend value g0 = (g, ev, Return k) ->
  AsyncIterable.state g = GenSuspended /\ aig_cur g = k.
Proof.
  destruct g0 as [[n l] st]. unfold AsyncIterable.asend, AsyncIterable.loop.
  destruct st, value as [v|]; simpl; ltb_cases; intros Heq;
    inversion Heq; subst; auto.
Qed.

(** C6 as stated fails: with limit 3, after item 1 is received, sending 5
    does not produce 6; the generator leaves its loop and raises the
    exhaustion signal, cursor 5, and nothing is produced afterwards. *)
Lemma injected_cursor_past_limit_counterexample :
  AsyncIterable.__anext__ (AsyncIterable.__aiter__ (AsyncIterable.__init__ 3))
  = (received_1_of_3, [EvSleep], Return 1)
  /\ AsyncIterable.asend (Some 5) received_1_of_3
     = ({| AsyncIterable.self := {| AsyncIterable.n := 5; AsyncIterable.limit := 3 |};
           AsyncIterable.state := GenClosed |}, [],
        Raise {| exc_type := StopAsyncIteration; exc_msg := EmptyString |})
  /\ snd (AsyncIterable.asend (Some 5) received_1_of_3) <> Return (5 + 1).
Proof. repeat split. discriminate. Qed.

(** C6, amended.  After the consumer has received item [k] from the
    generator of an [AsyncIterable], sending [V]:
    - if [V < limit], produces [V + 1] (whatever [k] was), leaves the cursor
      at [V + 1], and the rest of the drain prints [V + 2, ..., limit] and
      [done];
    - if [limit <= V], produces nothing: the exhaustion signal is raised
      and the generator is closed with cursor [V].
    Without a sent value the next item would have been [k + 1]. *)
Theorem injected_cursor_redirects
  (value : option Z) (g0 g : AsyncIterable.gen) (ev : list event) (k V : Z)
  (Hrecv : AsyncIterable.asend value g0 = (g, ev, Return k)) :
  (V < aig_lim g ->
   exists g',
     AsyncIterable.asend (Some V) g = (g', [], Return (V + 1))
     /\ aig_cur g' = V + 1 /\ aig_lim g' = aig_lim g
     /\ forall fuel : nat, (Z.to_nat (aig_lim g - (V + 1)) + 2 <= fuel)%nat ->
        exists g'' tr,
          while_running fuel true g' = Some (g'', tr, Return tt)
          /\ stdout tr
             = map ev_item (count_from (V + 2) (Z.to_nat (aig_lim g - (V + 1))))
               ++ [ev_done])
  /\ (aig_lim g <= V ->
      AsyncIterable.asend (Some V) g
      = ({| AsyncIterable.self := {| AsyncIterable.n := V;
                                     AsyncIterable.limit := aig_lim g |};
            AsyncIterable.state := GenClosed |}, [],
         Raise {| exc_type := StopAsyncIteration; exc_msg := EmptyString |}))
  /\ (k < aig_lim g ->
      exists g', AsyncIterable.__anext__ g = (g', [], Return (k + 1))).
Proof.
  destruct (aig_received _ _ _ _ _ Hrecv) as [Hst Hk].
  destruct g as [[n l] st]. unfold aig_cur, aig_lim in *. simpl in *. subst st n.
  unfold AsyncIterable.__anext__, AsyncIterable.asend, AsyncIterable.loop. simpl.
  repeat split.
  - intros HV. ltb_cases; try lia. eexists. repeat split.
    intros fuel Hfuel.
    destruct (drain_counter _ _ aig_inv aig_anext_yield aig_anext_stop
                (Z.to_nat (l - (V + 1)))
                {| AsyncIterable.self := {| AsyncIterable.n := V + 1;
                                            AsyncIterable.limit := l |};
                   AsyncIterable.state := GenSuspended |} fuel)
      as (g'' & tr & Hrun & Hout & _); auto.
    + exact I.
    + exists g'', tr. split; [exact Hrun|].
      unfold aig_cur in Hout. simpl in Hout.
      now replace (V + 2) with (V + 1 + 1) by lia.
  - intros HV. ltb_cases; try lia. reflexivity.
  - intros Hk. ltb_cases; try lia. eexists. reflexivity.
Qed.

Lemma injected_cursor_redirects_witness :
  AsyncIterable.asend None (AsyncIterable.__aiter__ (AsyncIterable.__init__ 3))
  = (received_1_of_3, [EvSleep], Return 1)
  /\ (exists g',
      AsyncIterable.asend (Some (-2)) received_1_of_3 = (g', [], Return (-2 + 1))
      /\ aig_cur g' = -2 + 1 /\ aig_lim g' = aig_lim received_1_of_3
      /\ forall fuel : nat,
         (Z.to_nat (aig_lim received_1_of_3 - (-2 + 1)) + 2 <= fuel)%nat ->
         exists g'' tr,
           while_running fuel true g' = Some (g'', tr, Return tt)
           /\ stdout tr
              = map ev_item
                  (count_from (-2 + 2) (Z.to_nat (aig_lim received_1_of_3 - (-2 + 1))))
                ++ [ev_done]).
Proof.
  split; [reflexivity|].
  apply (proj1 (injected_cursor_redirects None
                  (AsyncIterable.__aiter__ (AsyncIterable.__init__ 3))
                  received_1_of_3 [EvSleep] 1 (-2) eq_refl)).
  vm_compute. reflexivity.
Defined.

(** Receiving 1 from [AsyncIterable(3)], sending -2, then draining:
    the consumer sees -1, 0, 1, 2, 3. *)
Example injected_cursor_drain :
  option_map (fun r => render (snd (fst r)))
    (while_running (H := AsyncIterable_callable) 10 true
       (fst (fst (AsyncIterable.asend (Some (-2)) received_1_of_3))))
  = Some ("0, 1, 2, 3, done" ++ newline)%string.
Proof. vm_compute. reflexivity. Qed.

(** ** The cursor *)

Lemma aig_inv_aiter (s : AsyncIterable.t) : aig_inv (AsyncIterable.__aiter__ s).
Proof. exact I. Qed.

Lemma aig_inv_asend (value : option Z) (g : AsyncIterable.gen) :
  aig_inv g -> aig_inv (fst (fst (AsyncIterable.asend value g))).
Proof.
  destruct g as [[n l] st]. unfold aig_inv, aig_cur, aig_lim.
  unfold AsyncIterable.asend, AsyncIterable.loop.
  destruct st, value as [v|]; simpl; ltb_cases; simpl; auto; lia.
Qed.

(** C8. One production step ([__anext__], nothing sent in) never lowers the
    cursor and never changes the limit, for [AsyncIterator] in any state and
    for the generator of an [AsyncIterable] in any state it can reach; the
    step raises the exhaustion signal exactly when the cursor it starts from
    has reached the limit ([limit <= n]), which, as long as the cursor has
    not been pushed past the limit, means [n = limit]; a step that yields
    never takes the cursor past the limit.  Only a sent value overrides the
    cursor: it restarts the count from the value sent, higher or lower. *)
Theorem cursor_monotone_until_bound
  (it : AsyncIterator.t) (g : AsyncIterable.gen) (Hg : aig_inv g) :
  (AsyncIterator.n it <= AsyncIterator.n (fst (fst (AsyncIterator.__anext__ it)))
   /\ AsyncIterator.limit (fst (fst (AsyncIterator.__anext__ it)))
      = AsyncIterator.limit it
   /\ (raised_stop (snd (AsyncIterator.__anext__ it)) = true
       <-> AsyncIterator.limit it <= AsyncIterator.n it)
   /\ (AsyncIterator.n it <= AsyncIterator.limit it ->
       (raised_stop (snd (AsyncIterator.__anext__ it)) = true
        <-> AsyncIterator.n it = AsyncIterator.limit it)
       /\ (raised_stop (snd (AsyncIterator.__anext__ it)) = false ->
           AsyncIterator.n (fst (fst (AsyncIterator.__anext__ it)))
           <= AsyncIterator.limit it)))
  /\ (aig_cur g <= aig_cur (fst (fst (AsyncIterable.__anext__ g)))
      /\ aig_lim (fst (fst (AsyncIterable.__anext__ g))) = aig_lim g
      /\ (raised_stop (snd (AsyncIterable.__anext__ g)) = true
          <-> aig_lim g <= aig_cur g)
      /\ (aig_cur g <= aig_lim g ->
          (raised_stop (snd (AsyncIterable.__anext__ g)) = true
           <-> aig_cur g = aig_lim g)
          /\ aig_cur (fst (fst (AsyncIterable.__anext__ g))) <= aig_lim g))
  /\ (forall value, aig_inv (fst (fst (AsyncIterable.asend value g))))
  /\ (forall V, AsyncIterable.state g = GenSuspended ->
        aig_cur (fst (fst (AsyncIterable.asend (Some V) g)))
        = if V <? aig_lim g then V + 1 else V).
Proof.
  split; [|split; [|split]].
  - destruct it as [n l]. unfold AsyncIterator.__anext__. simpl.
    rewrite (Z.gtb_ltb (n + 1) l).
    destruct (Z.ltb_spec l (n + 1)); simpl; repeat split; intros; try lia;
      discriminate.
  - destruct g as [[n l] st]. unfold aig_inv, aig_cur, aig_lim in *.
    unfold AsyncIterable.__anext__, AsyncIterable.asend, AsyncIterable.loop.
    destruct st; simpl in *;
      try destruct (Z.ltb_spec n l); simpl; repeat split; intros; try lia;
      try discriminate; auto.
  - intros value. now apply aig_inv_asend.
  - intros V Hst. destruct g as [[n l] st]. simpl in Hst. subst st.
    unfold aig_cur, aig_lim, AsyncIterable.asend, AsyncIterable.loop. simpl.
    destruct (Z.ltb_spec V l); reflexivity.
Qed.

Lemma cursor_monotone_until_bound_witness :
  aig_inv received_1_of_3
  /\ aig_cur received_1_of_3
     <= aig_cur (fst (fst (AsyncIterable.__anext__ received_1_of_3)))
  /\ aig_lim (fst (fst (AsyncIterable.__anext__ received_1_of_3)))
     = aig_lim received_1_of_3
  /\ (raised_stop (snd (AsyncIterable.__anext__ received_1_of_3)) = true
      <-> aig_lim received_1_of_3 <= aig_cur received_1_of_3)
  /\ (aig_cur received_1_of_3 <= aig_lim received_1_of_3 ->
      (raised_stop (snd (AsyncIterable.__anext__ received_1_of_3)) = true
       <-> aig_cur received_1_of_3 = aig_lim received_1_of_3)
      /\ aig_cur (fst (fst (AsyncIterable.__anext__ received_1_of_3)))
         <= aig_lim received_1_of_3).
Proof.
  split; [exact I|].
  apply (proj1 (proj2 (cursor_monotone_until_bound
                         (AsyncIterator.__init__ 3) received_1_of_3 I))).
Defined.

(** A sent value may lower the cursor: from cursor 1, sending -2 gives -1. *)
Example injected_cursor_lowers :
  aig_cur (fst (fst (AsyncIterable.asend (Some (-2)) received_1_of_3))) = -1.
Proof. reflexivity. Qed.

(** ** Scoped resources *)

(** The output the notebook records for cell 10. *)
Example cell_10_output :
  render (fst cell_10) = ("division by zero" ++ newline)%string
  /\ snd cell_10 = Return tt.
Proof. split; reflexivity. Qed.

Lemma run_block_no_aexit {M : Type} (body : list (stmt M)) :
  forall cancel_at m, filter is_aexit (snd (fst (run_block body cancel_at m))) = [].
Proof.
  induction body as [|[f|] rest IH]; intros cancel_at m; simpl.
  - reflexivity.
  - destruct (f m) as [m' [u|e]]; [apply IH | reflexivity].
  - destruct cancel_at as [[|k]|].
    + reflexivity.
    + specialize (IH (Some k) m).
      destruct (run_block rest (Some k) m) as [[m' ev] r]. exact IH.
    + specialize (IH None m).
      destruct (run_block rest None m) as [[m' ev] r]. exact IH.
Qed.

Lemma count_aexit_app (a b : list event) :
  count_aexit (a ++ b) = (count_aexit a + count_aexit b)%nat.
Proof. unfold count_aexit. now rewrite filter_app, length_app. Qed.

(** The general shape of [async with] once enter has completed and exit
    returns a value. *)
Lemma async_with_entered {M : Type} `{AsyncCM M}
  (mgr m1 m2 m3 : M) (body : list (stmt M)) (cancel_at : option nat)
  (ev0 ev1 ev2 : list event) (v suppress : pyval) (r : result unit) :
  cm_aenter mgr = (m1, ev0, Return v) ->
  run_block body cancel_at m1 = (m2, ev1, r) ->
  cm_aexit m2 (exc_info r) = (m3, ev2, Return suppress) ->
  async_with mgr body cancel_at
  = (m3, EvAEnter :: ev0 ++ ev1 ++ EvAExit (exc_info r) :: ev2,
     match r with
     | Return _ => Return tt
     | Raise e => if truthy suppress then Return tt else Raise e
     end).
Proof.
  intros Henter Hblock Hexit. unfold async_with.
  rewrite Henter, Hblock. destruct r as [u|e]; simpl in Hexit; rewrite Hexit;
    reflexivity.
Qed.

(** C2. For [AsyncContextManager], whose enter always completes: whatever
    the guarded block is and whether or not the task is cancelled at one of
    its suspension points, [async with] awaits [__aexit__] exactly once; it
    is the last thing the statement does, after the events of the block; it
    is handed nothing when the block ended normally and the exception
    (a raised one, or [CancelledError]) otherwise; and the outcome of the
    statement is the outcome of the block. *)
Theorem aexit_runs_exactly_once
  (acm : AsyncContextManager.t) (body : list (stmt AsyncContextManager.t))
  (cancel_at : option nat) :
  count_aexit (snd (fst (async_with acm body cancel_at))) = 1%nat
  /\ snd (fst (async_with acm body cancel_at))
     = EvAEnter :: snd (fst (run_block body cancel_at acm))
       ++ [EvAExit (exc_info (snd (run_block body cancel_at acm)))]
  /\ snd (async_with acm body cancel_at) = snd (run_block body cancel_at acm).
Proof.
  pose proof (run_block_no_aexit body cancel_at acm) as Hno.
  destruct (run_block body cancel_at acm) as [[m2 ev1] r] eqn:Hblock.
  rewrite (async_with_entered (H := AsyncContextManager_cm)
             acm acm m2 m2 body cancel_at [] ev1 [] PyNone PyNone r
             eq_refl Hblock eq_refl).
  simpl in *. repeat split.
  - change (EvAEnter :: ev1 ++ [EvAExit (exc_info r)])
      with ([EvAEnter] ++ ev1 ++ [EvAExit (exc_info r)]).
    rewrite !count_aexit_app. unfold count_aexit at 2. rewrite Hno. reflexivity.
  - destruct r as [[]|e]; reflexivity.
Qed.

(** Three scopes over one manager instance, one after the other: the block
    ends normally, the block raises, the block is cancelled while suspended
    at its second suspension point.  Each scope awaits [__aexit__] once. *)
Example three_scopes_one_manager :
  let acm := AsyncContextManager.__init__ PyNone in
  let '(acm1, tr1, r1) := async_with acm block_normal None in
  let '(acm2, tr2, r2) := async_with acm1 cell_10_block None in
  let '(acm3, tr3, r3) := async_with acm2 block_suspending (Some 1%nat) in
  (count_aexit tr1, count_aexit tr2, count_aexit tr3) = (1%nat, 1%nat, 1%nat)
  /\ r1 = Return tt
  /\ r2 = Raise {| exc_type := ZeroDivisionError; exc_msg := "division by zero" |}
  /\ r3 = Raise {| exc_type := CancelledError; exc_msg := EmptyString |}
  /\ tr3 = [EvAEnter; EvSleep; EvSleep;
            EvAExit (Some {| exc_type := CancelledError; exc_msg := EmptyString |})].
Proof. vm_compute. repeat split. Qed.

(** C3. When the block of an [async with] raises [e] (enter having
    completed), [__aexit__] is awaited with [e]; if it returns a true value
    the statement ends normally, if it returns a false value or [None] the
    statement raises [e], in both cases after the events of exit.  For
    [AsyncContextManager], whose [__aexit__] returns [None], the block of
    cell 10 leaves [ZeroDivisionError] raised out of the statement after
    one await of [__aexit__], and the cell's handler prints its message. *)
Theorem scope_failure_suppressed_iff_exit_truthy {M : Type} `{AsyncCM M}
  (mgr m1 m2 m3 : M) (body : list (stmt M)) (cancel_at : option nat)
  (ev0 ev1 ev2 : list event) (v suppress : pyval) (e : exception)
  (Henter : cm_aenter mgr = (m1, ev0, Return v))
  (Hblock : run_block body cancel_at m1 = (m2, ev1, Raise e))
  (Hexit : cm_aexit m2 (Some e) = (m3, ev2, Return suppress)) :
  async_with mgr body cancel_at
  = (m3, EvAEnter :: ev0 ++ ev1 ++ EvAExit (Some e) :: ev2,
     if truthy suppress then Return tt else Raise e)
  /\ async_with (AsyncContextManager.__init__ PyNone) cell_10_block None
     = ({| AsyncContextManager.exclusive_resource := PyNone;
           AsyncContextManager.resource_used := Some true |},
        [EvAEnter;
         EvAExit (Some {| exc_type := ZeroDivisionError;
                          exc_msg := "division by zero" |})],
        Raise {| exc_type := ZeroDivisionError; exc_msg := "division by zero" |})
  /\ cell_10
     = ([EvAEnter;
         EvAExit (Some {| exc_type := ZeroDivisionError;
                          exc_msg := "division by zero" |});
         EvPrint "division by zero" newline], Return tt).
Proof.
  split; [|split; reflexivity].
  exact (async_with_entered mgr m1 m2 m3 body cancel_at ev0 ev1 ev2 v suppress
           (Raise e) Henter Hblock Hexit).
Qed.

Lemma scope_failure_suppressed_iff_exit_truthy_witness :
  cm_aenter (AsyncContextManager.__init__ (PyStr "lock"))
  = (AsyncContextManager.__init__ (PyStr "lock"), [], Return PyNone)
  /\ run_block cell_10_block None (AsyncContextManager.__init__ (PyStr "lock"))
     = ({| AsyncContextManager.exclusive_resource := PyStr "lock";
           AsyncContextManager.resource_used := Some true |}, [],
        Raise {| exc_type := ZeroDivisionError; exc_msg := "division by zero" |})
  /\ async_with (AsyncContextManager.__init__ (PyStr "lock")) cell_10_block None
     = ({| AsyncContextManager.exclusive_resource := PyStr "lock";
           AsyncContextManager.resource_used := Some true |},
        [EvAEnter;
         EvAExit (Some {| exc_type := ZeroDivisionError;
                          exc_msg := "division by zero" |})],
        Raise {| exc_type := ZeroDivisionError; exc_msg := "division by zero" |}).
Proof.
  split; [reflexivity|]. split; [reflexivity|].
  apply (proj1 (scope_failure_suppressed_iff_exit_truthy
                  (H := AsyncContextManager_cm)
                  (AsyncContextManager.__init__ (PyStr "lock"))
                  (AsyncContextManager.__init__ (PyStr "lock"))
                  {| AsyncContextManager.exclusive_resource := PyStr "lock";
                     AsyncContextManager.resource_used := Some true |}
                  {| AsyncContextManager.exclusive_resource := PyStr "lock";
                     AsyncContextManager.resource_used := Some true |}
                  cell_10_block None [] [] [] PyNone PyNone
                  {| exc_type := ZeroDivisionError; exc_msg := "division by zero" |}
                  eq_refl eq_refl eq_refl)).
Defined.

(** With an exit that returns [True] the failing division ends normally. *)
Example swallowing_exit_suppresses :
  async_with (H := swallowing_cm) tt [Exec (fun u => (u, discard (truediv 1 0)))] None
  = (tt, [EvAEnter;
          EvAExit (Some {| exc_type := ZeroDivisionError;
                           exc_msg := "division by zero" |})], Return tt).
Proof. reflexivity. Qed.

(** ** The classifier *)

(** C4. The table of the three predicates, one object per kind: the native
    coroutine function satisfies is-coroutine-callable only; the coroutine
    object a call of it returns satisfies is-started-task and
    is-generic-awaitable; the [FutureLike] instance satisfies
    is-generic-awaitable only; the generator-based coroutine function
    satisfies none; the generator a call of it returns satisfies
    is-generic-awaitable only.  Every assertion of cells 12, 13 and 15
    holds. *)
Theorem classifier_truth_table :
  Inspect.classify Inspect.NCF = (true, false, false)
  /\ option_map Inspect.classify Inspect.NCO = Some (false, true, true)
  /\ Inspect.classify Inspect.FLO = (false, false, true)
  /\ Inspect.classify Inspect.GBCF = (false, false, false)
  /\ option_map Inspect.classify Inspect.GBCO = Some (false, false, true)
  /\ forallb (fun b => b) Inspect.cell_12_asserts = true
  /\ option_map (forallb (fun b => b)) Inspect.cell_13_asserts = Some true
  /\ option_map (forallb (fun b => b)) Inspect.cell_15_asserts = Some true.
Proof. repeat split. Qed.

(** * Part IV: further properties of the code *)

(** ** After exhaustion *)

Lemma aig_asend_closed (value : option Z) (g : AsyncIterable.gen) :
  AsyncIterable.state g = GenClosed ->
  AsyncIterable.asend value g = (g, [], Raise stop_iteration).
Proof. intros Hst. unfold AsyncIterable.asend. now rewrite Hst. Qed.

Lemma aig_asend_stop_closes (value : option Z) (g : AsyncIterable.gen) :
  raised_stop (snd (AsyncIterable.asend value g)) = true ->
  AsyncIterable.state (fst (fst (AsyncIterable.asend value g))) = GenClosed.
Proof.
  destruct g as [[n l] st]. unfold AsyncIterable.asend, AsyncIterable.loop.
  destruct st, value as [v|]; simpl; ltb_cases; simpl; auto; discriminate.
Qed.

Lemma agf_asend_closed (value : option Z) (f : async_gen_func.t) :
  async_gen_func.state f = GenClosed ->
  async_gen_func.asend value f = (f, [], Raise stop_iteration).
Proof. intros Hst. unfold async_gen_func.asend. now rewrite Hst. Qed.

Lemma agf_asend_stop_closes (value : option Z) (f : async_gen_func.t) :
  raised_stop (snd (async_gen_func.asend value f)) = true ->
  async_gen_func.state (fst (fst (async_gen_func.asend value f))) = GenClosed.
Proof.
  destruct f as [st n l]. unfold async_gen_func.asend, async_gen_func.loop.
  destruct st, value as [v|]; simpl; ltb_cases; simpl; auto; discriminate.
Qed.

(** X1. Exhaustion of the two async generators is final.  Once a step of
    the generator of [async_gen_func] or of [AsyncIterable.__aiter__] has
    raised [StopAsyncIteration], every later step, whatever value is sent
    in, raises [StopAsyncIteration] again, performs nothing (no sleep) and
    leaves the generator and the instance as they are: a value sent into an
    exhausted [AsyncIterable] generator does not move the cursor. *)
Theorem exhausted_generators_stay_exhausted
  (value : option Z) (values : list (option Z))
  (f : async_gen_func.t) (g : AsyncIterable.gen) :
  (raised_stop (snd (async_gen_func.asend value f)) = true ->
   run_calls async_gen_func.asend values (fst (fst (async_gen_func.asend value f)))
   = (fst (fst (async_gen_func.asend value f)), [],
      map (fun _ => Raise stop_iteration) values))
  /\ (raised_stop (snd (AsyncIterable.asend value g)) = true ->
      run_calls AsyncIterable.asend values (fst (fst (AsyncIterable.asend value g)))
      = (fst (fst (AsyncIterable.asend value g)), [],
         map (fun _ => Raise stop_iteration) values)).
Proof.
  split.
  - intros Hf. apply agf_asend_stop_closes in Hf.
    induction values as [|v values IH]; simpl; [reflexivity|].
    rewrite (agf_asend_closed v _ Hf), IH. reflexivity.
  - intros Hg. apply aig_asend_stop_closes in Hg.
    induction values as [|v values IH]; simpl; [reflexivity|].
    rewrite (aig_asend_closed v _ Hg), IH. reflexivity.
Qed.

Lemma exhausted_generators_stay_exhausted_witness :
  raised_stop (snd (AsyncIterable.asend (Some 7) received_1_of_3)) = true
  /\ run_calls AsyncIterable.asend [Some 0; None; Some (-4)]
       (fst (fst (AsyncIterable.asend (Some 7) received_1_of_3)))
     = (fst (fst (AsyncIterable.asend (Some 7) received_1_of_3)), [],
        map (fun _ => Raise stop_iteration) [Some 0; None; Some (-4)]).
Proof.
  split; [reflexivity|].
  apply (proj2 (exhausted_generators_stay_exhausted (Some 7) [Some 0; None; Some (-4)]
                  (async_gen_func.call 0) received_1_of_3)).
  reflexivity.
Defined.

(** X2. An exhausted [AsyncIterator] stays exhausted, but not still: from a
    state with [limit <= n], each of [k] further [__anext__] calls sleeps,
    raises [StopAsyncIteration] and adds one to the cursor, which ends at
    [n + k]. *)
Theorem exhausted_iterator_keeps_counting (it : AsyncIterator.t) (k : nat)
  (Hdone : AsyncIterator.limit it <= AsyncIterator.n it) :
  run_calls (fun _ : unit => AsyncIterator.__anext__) (repeat tt k) it
  = ({| AsyncIterator.n := AsyncIterator.n it + Z.of_nat k;
        AsyncIterator.limit := AsyncIterator.limit it |},
     repeat EvSleep k, repeat (Raise stop_iteration) k).
Proof.
  revert it Hdone. induction k as [|k IH]; intros [n l] Hdone.
  - simpl. now rewrite Z.add_0_r.
  - replace (Z.of_nat (S k)) with (1 + Z.of_nat k) by lia.
    cbn [repeat run_calls AsyncIterator.n AsyncIterator.limit] in *.
    unfold AsyncIterator.__anext__ at 1.
    cbn [AsyncIterator.n AsyncIterator.limit].
    rewrite (Z.gtb_ltb (n + 1) l). destruct (Z.ltb_spec l (n + 1)); [|lia].
    rewrite IH by (simpl; lia).
    cbn [AsyncIterator.n AsyncIterator.limit app].
    now rewrite Z.add_assoc.
Qed.

Lemma exhausted_iterator_keeps_counting_witness :
  AsyncIterator.limit {| AsyncIterator.n := 4; AsyncIterator.limit := 3 |}
  <= AsyncIterator.n {| AsyncIterator.n := 4; AsyncIterator.limit := 3 |}
  /\ run_calls (fun _ : unit => AsyncIterator.__anext__) (repeat tt 2)
       {| AsyncIterator.n := 4; AsyncIterator.limit := 3 |}
     = ({| AsyncIterator.n := 4 + Z.of_nat 2; AsyncIterator.limit := 3 |},
        repeat EvSleep 2, repeat (Raise stop_iteration) 2).
Proof.
  split; [simpl; lia|].
  apply (exhausted_iterator_keeps_counting
           {| AsyncIterator.n := 4; AsyncIterator.limit := 3 |} 2).
  simpl; lia.
Defined.

(** ** Values sent in *)

Lemma agf_asend_started (value : option Z) (f : async_gen_func.t) :
  async_gen_func.state f <> GenCreated ->
  async_gen_func.asend value f = async_gen_func.asend None f
  /\ async_gen_func.state (fst (fst (async_gen_func.asend None f))) <> GenCreated.
Proof.
  destruct f as [st n l]. unfold async_gen_func.asend, async_gen_func.loop.
  destruct st; simpl; intros Hst; try congruence;
    ltb_cases; simpl; split; auto; discriminate.
Qed.

(** X3. The generator of [async_gen_func] has no use for sent values: once
    it has started, any series of [asend] calls gives the states, events and
    results of as many plain [__anext__] calls. *)
Theorem async_gen_func_drops_sent_values
  (values : list (option Z)) (f : async_gen_func.t)
  (Hstarted : async_gen_func.state f <> GenCreated) :
  run_calls async_gen_func.asend values f
  = run_calls async_gen_func.asend (map (fun _ => None) values) f.
Proof.
  revert f Hstarted. induction values as [|v values IH]; intros f Hstarted; simpl.
  - reflexivity.
  - destruct (agf_asend_started v f Hstarted) as [Heq Hnext].
    rewrite Heq.
    destruct (async_gen_func.asend None f) as [[f1 ev1] r1]. simpl in Hnext.
    now rewrite (IH f1 Hnext).
Qed.

Lemma async_gen_func_drops_sent_values_witness :
  async_gen_func.state
    {| async_gen_func.state := GenSuspended; async_gen_func.n := 1;
       async_gen_func.limit := 4 |} <> GenCreated
  /\ run_calls async_gen_func.asend [Some 40; None; Some (-3)]
       {| async_gen_func.state := GenSuspended; async_gen_func.n := 1;
          async_gen_func.limit := 4 |}
     = run_calls async_gen_func.asend (map (fun _ => None) [Some 40; None; Some (-3)])
         {| async_gen_func.state := GenSuspended; async_gen_func.n := 1;
            async_gen_func.limit := 4 |}.
Proof.
  split; [simpl; discriminate|].
  apply (async_gen_func_drops_sent_values [Some 40; None; Some (-3)]
           {| async_gen_func.state := GenSuspended; async_gen_func.n := 1;
              async_gen_func.limit := 4 |}).
  simpl; discriminate.
Defined.

(** X8. With [AsyncIterable] the consumer decides whether the iteration
    ends: sending the same [V < limit] into a suspended generator again and
    again produces [V + 1] every time, without a sleep, and the generator
    is still suspended, cursor [V + 1], after any number of sends. *)
Theorem resending_keeps_iteration_alive (g : AsyncIterable.gen) (V : Z) (k : nat)
  (Hsusp : AsyncIterable.state g = GenSuspended) (HV : V < aig_lim g) :
  run_calls AsyncIterable.asend (repeat (Some V) (S k)) g
  = ({| AsyncIterable.self := {| AsyncIterable.n := V + 1;
                                 AsyncIterable.limit := aig_lim g |};
        AsyncIterable.state := GenSuspended |},
     [], repeat (Return (V + 1)) (S k)).
Proof.
  revert g Hsusp HV. induction k as [|k IH]; intros [[n l] st] Hsusp HV;
    unfold aig_lim in *; simpl in *; subst st.
  - unfold AsyncIterable.asend, AsyncIterable.loop. simpl.
    destruct (Z.ltb_spec V l); [reflexivity|lia].
  - unfold AsyncIterable.asend at 1, AsyncIterable.loop at 1. simpl.
    destruct (Z.ltb_spec V l); [|lia].
    specialize (IH {| AsyncIterable.self := {| AsyncIterable.n := V + 1;
                                               AsyncIterable.limit := l |};
                      AsyncIterable.state := GenSuspended |} eq_refl HV).
    simpl in IH. rewrite IH. reflexivity.
Qed.

Lemma resending_keeps_iteration_alive_witness :
  AsyncIterable.state received_1_of_3 = GenSuspended
  /\ 0 < aig_lim received_1_of_3
  /\ run_calls AsyncIterable.asend (repeat (Some 0) 5) received_1_of_3
     = ({| AsyncIterable.self := {| AsyncIterable.n := 0 + 1;
                                    AsyncIterable.limit := aig_lim received_1_of_3 |};
           AsyncIterable.state := GenSuspended |},
        [], repeat (Return (0 + 1)) 5).
Proof.
  split; [reflexivity|]. split; [reflexivity|].
  apply (resending_keeps_iteration_alive received_1_of_3 0 4); reflexivity.
Defined.

(** ** Generators sharing one instance *)

Lemma shared_anext_spec (i : nat) (st : shared) :
  (forall j, sh_gens st j = GenClosed ->
             AsyncIterable.limit (sh_self st) <= AsyncIterable.n (sh_self st)) ->
  exists st' ev,
    shared_anext i st
    = (st', ev, kth_result (AsyncIterable.limit (sh_self st))
                  (AsyncIterable.n (sh_self st) + 1))
    /\ AsyncIterable.limit (sh_self st') = AsyncIterable.limit (sh_self st)
    /\ AsyncIterable.n (sh_self st')
       = (if AsyncIterable.n (sh_self st) <? AsyncIterable.limit (sh_self st)
          then AsyncIterable.n (sh_self st) + 1 else AsyncIterable.n (sh_self st))
    /\ (forall j, sh_gens st' j = GenClosed ->
                  AsyncIterable.limit (sh_self st') <= AsyncIterable.n (sh_self st')).
Proof.
  destruct st as [[n l] gens]. simpl. intros Hclosed.
  unfold shared_anext, AsyncIterable.__anext__, AsyncIterable.asend,
    AsyncIterable.loop, kth_result. simpl.
  destruct (gens i) eqn:Hi; simpl;
    destruct (Z.ltb_spec n l); destruct (Z.leb_spec (n + 1) l); try lia;
    try (specialize (Hclosed i Hi); lia);
    eexists _, _; (split; [reflexivity|]); simpl;
    (split; [reflexivity|]); (split; [reflexivity|]);
    intros j; destruct (Nat.eqb j i); try discriminate; intros Hj;
    try (specialize (Hclosed j Hj)); lia.
Qed.

Lemma shared_run (L : Z) (sched : list nat) :
  forall (st : shared) (c : Z),
    AsyncIterable.limit (sh_self st) = L ->
    (forall i, sh_gens st i = GenClosed -> L <= AsyncIterable.n (sh_self st)) ->
    (AsyncIterable.n (sh_self st) < L -> c = AsyncIterable.n (sh_self st) + 1) ->
    (L <= AsyncIterable.n (sh_self st) -> L < c) ->
    snd (run_calls shared_anext sched st)
    = map (kth_result L) (count_from c (List.length sched)).
Proof.
  induction sched as [|i sched IH]; intros st c Hl Hclosed Hlt Hge;
    [reflexivity|].
  cbn [List.length run_calls]. rewrite count_from_S. subst L.
  destruct (shared_anext_spec i st Hclosed) as (st' & ev & Hstep & Hl' & Hn' & Hc').
  rewrite Hstep.
  specialize (IH st' (c + 1)).
  destruct (run_calls shared_anext sched st') as [[st2 ev2] rs].
  cbn [snd map] in *.
  rewrite <- IH.
  - f_equal. unfold kth_result.
    destruct (Z.leb_spec (AsyncIterable.n (sh_self st) + 1)
                (AsyncIterable.limit (sh_self st))) as [Hle|Hgt];
      destruct (Z.leb_spec c (AsyncIterable.limit (sh_self st)));
      try reflexivity; try lia.
    rewrite (Hlt ltac:(lia)). reflexivity.
  - exact Hl'.
  - intros j Hj. rewrite <- Hl'. exact (Hc' j Hj).
  - rewrite Hn'. destruct (Z.ltb_spec (AsyncIterable.n (sh_self st))
                             (AsyncIterable.limit (sh_self st))); lia.
  - rewrite Hn'. destruct (Z.ltb_spec (AsyncIterable.n (sh_self st))
                             (AsyncIterable.limit (sh_self st))); lia.
Qed.

(** X9. The cursor of [AsyncIterable] lives on the instance, so generators
    made on one instance share it: whichever generator each call goes to,
    the [k]-th [__anext__] call overall yields [k] while [k <= limit] and
    raises [StopAsyncIteration] from then on.  The generators split the
    items between them; none is produced twice. *)
Theorem generators_of_one_instance_share_cursor (L : Z) (sched : list nat) :
  snd (run_calls shared_anext sched (shared_init L))
  = map (kth_result L) (count_from 1 (List.length sched)).
Proof.
  apply shared_run; simpl; intros; try reflexivity; try discriminate; lia.
Qed.

(** Two generators on [AsyncIterable(3)], stepped in the order 0, 1, 1, 0, 1. *)
Example two_generators_split_the_items :
  snd (run_calls shared_anext [0; 1; 1; 0; 1]%nat (shared_init 3))
  = [Return 1; Return 2; Return 3; Raise stop_iteration; Raise stop_iteration].
Proof. reflexivity. Qed.

(** ** Awaiting a [FutureLike] *)

(** X11. A [FutureLike] caches nothing: awaited [k] times in a row it gives
    1871 every time, whatever its sleep time is, and every await runs a new
    [_wrapped] coroutine, so [k] sleeps of [t_sleep] are asked for; the
    instance is unchanged. *)
Theorem future_like_awaits_are_not_cached
  (duration : Type) (self : FutureLike.t duration) (k : nat) :
  run_calls (fun _ : unit => FutureLike.__await__ duration) (repeat tt k) self
  = (self, repeat (FutureLike.t_sleep duration self) k, repeat (Return 1871) k).
Proof.
  induction k as [|k IH]; [reflexivity|].
  cbn [repeat run_calls].
  change (FutureLike.__await__ duration self)
    with (self, [FutureLike.t_sleep duration self], @Return Z 1871).
  cbv iota beta. rewrite IH. reflexivity.
Qed.

(** ** How often a drain sleeps *)

Lemma count_sleeps_app (a b : list event) :
  count_sleeps (a ++ b) = (count_sleeps a + count_sleeps b)%nat.
Proof. unfold count_sleeps. now rewrite filter_app, length_app. Qed.

Section SleepCount.
Context {Iter Gen : Type} `{AgCallable Iter Gen}.

(** A counter whose every step sleeps [k] times. *)
Variables (cur lim : Gen -> Z) (Inv : Gen -> Prop) (k : nat).

Hypothesis sleepy_yield : forall g, Inv g -> cur g < lim g ->
  exists g' ev target, ag_anext g = (g', ev, Return target) /\ count_sleeps ev = k
                       /\ Inv g' /\ cur g' = cur g + 1 /\ lim g' = lim g.

Hypothesis sleepy_stop : forall g, Inv g -> lim g <= cur g ->
  exists g' ev e, ag_anext g = (g', ev, Raise e)
                  /\ exc_type e = StopAsyncIteration /\ count_sleeps ev = k.

Lemma drain_sleeps (m : nat) :
  forall g fuel,
    Inv g -> Z.to_nat (lim g - cur g) = m -> (m + 2 <= fuel)%nat ->
    exists g' tr, while_running fuel true g = Some (g', tr, Return tt)
                  /\ count_sleeps tr = (k * (m + 1))%nat.
Proof.
  induction m as [|m IH]; intros g fuel HI Hm Hfuel.
  - destruct (sleepy_stop g HI ltac:(lia)) as (g' & ev & e & Hn & Hty & Hev).
    destruct fuel as [|[|fuel]]; try lia.
    exists g', (ev ++ [ev_done]).
    split; [now apply while_running_on_stop with e|].
    rewrite count_sleeps_app, Hev.
    change (count_sleeps [ev_done]) with 0%nat. lia.
  - destruct (sleepy_yield g HI ltac:(lia))
      as (g1 & ev & target & Hn & Hev & HI1 & Hc1 & Hl1).
    destruct fuel as [|fuel]; [lia|].
    destruct (IH g1 fuel HI1 ltac:(lia) ltac:(lia)) as (g' & tr & Hrun & Hcount).
    exists g', ((ev ++ [ev_item target]) ++ tr).
    split. { rewrite (while_running_on_item _ _ _ _ _ Hn), Hrun. reflexivity. }
    rewrite !count_sleeps_app, Hev, Hcount.
    change (count_sleeps [ev_item target]) with 0%nat. lia.
Qed.

End SleepCount.

Lemma agf_sleepy_yield (f : async_gen_func.t) :
  async_gen_func.state f = GenSuspended ->
  async_gen_func.n f < async_gen_func.limit f ->
  exists f' ev target,
    ag_anext f = (f', ev, Return target) /\ count_sleeps ev = 0%nat
    /\ async_gen_func.state f' = GenSuspended
    /\ async_gen_func.n f' = async_gen_func.n f + 1
    /\ async_gen_func.limit f' = async_gen_func.limit f.
Proof.
  destruct f as [st n l]. simpl. intros -> Hlt.
  unfold async_gen_func.__anext__, async_gen_func.asend, async_gen_func.loop.
  simpl. destruct (Z.ltb_spec n l); [|lia].
  eexists _, _, _. repeat split.
Qed.

Lemma agf_sleepy_stop (f : async_gen_func.t) :
  async_gen_func.state f = GenSuspended ->
  async_gen_func.limit f <= async_gen_func.n f ->
  exists f' ev e,
    ag_anext f = (f', ev, Raise e) /\ exc_type e = StopAsyncIteration
    /\ count_sleeps ev = 0%nat.
Proof.
  destruct f as [st n l]. simpl. intros -> Hle.
  unfold async_gen_func.__anext__, async_gen_func.asend, async_gen_func.loop.
  simpl. destruct (Z.ltb_spec n l); [lia|].
  eexists _, _, _. repeat split.
Qed.

Lemma aig_sleepy_yield (g : AsyncIterable.gen) :
  AsyncIterable.state g = GenSuspended -> aig_cur g < aig_lim g ->
  exists g' ev target,
    ag_anext g = (g', ev, Return target) /\ count_sleeps ev = 0%nat
    /\ AsyncIterable.state g' = GenSuspended
    /\ aig_cur g' = aig_cur g + 1 /\ aig_lim g' = aig_lim g.
Proof.
  destruct g as [[n l] st]. unfold aig_cur, aig_lim. simpl. intros -> Hlt.
  unfold AsyncIterable.__anext__, AsyncIterable.asend, AsyncIterable.loop.
  simpl. destruct (Z.ltb_spec n l); [|lia].
  eexists _, _, _. repeat split.
Qed.

Lemma aig_sleepy_stop (g : AsyncIterable.gen) :
  AsyncIterable.state g = GenSuspended -> aig_lim g <= aig_cur g ->
  exists g' ev e,
    ag_anext g = (g', ev, Raise e) /\ exc_type e = StopAsyncIteration
    /\ count_sleeps ev = 0%nat.
Proof.
  destruct g as [[n l] st]. unfold aig_cur, aig_lim. simpl. intros -> Hle.
  unfold AsyncIterable.__anext__, AsyncIterable.asend, AsyncIterable.loop.
  simpl. destruct (Z.ltb_spec n l); [lia|].
  eexists _, _, _. repeat split.
Qed.

Lemma ait_sleepy_yield (it : AsyncIterator.t) :
  True -> AsyncIterator.n it < AsyncIterator.limit it ->
  exists it' ev target,
    ag_anext it = (it', ev, Return target) /\ count_sleeps ev = 1%nat
    /\ True /\ AsyncIterator.n it' = AsyncIterator.n it + 1
    /\ AsyncIterator.limit it' = AsyncIterator.limit it.
Proof.
  destruct it as [n l]. simpl. intros _ Hlt. unfold AsyncIterator.__anext__. simpl.
  rewrite (Z.gtb_ltb (n + 1) l). destruct (Z.ltb_spec l (n + 1)); [lia|].
  eexists _, _, _. repeat split.
Qed.

Lemma ait_sleepy_stop (it : AsyncIterator.t) :
  True -> AsyncIterator.limit it <= AsyncIterator.n it ->
  exists it' ev e,
    ag_anext it = (it', ev, Raise e) /\ exc_type e = StopAsyncIteration
    /\ count_sleeps ev = 1%nat.
Proof.
  destruct it as [n l]. simpl. intros _ Hle. unfold AsyncIterator.__anext__. simpl.
  rewrite (Z.gtb_ltb (n + 1) l). destruct (Z.ltb_spec l (n + 1)); [|lia].
  eexists _, _, _. repeat split.
Qed.

Lemma agf_drain_sleeps_once (L : Z) (fuel : nat) :
  (Z.to_nat L + 2 <= fuel)%nat ->
  exists f' tr,
    manual (H := async_gen_func_callable) fuel L = Some (f', tr, Return tt)
    /\ count_sleeps tr = 1%nat.
Proof.
  intros Hfuel. unfold manual.
  change (ag_aiter (ag_call L)) with (async_gen_func.call L).
  destruct (Z.ltb_spec 0 L) as [Hpos|Hneg].
  - destruct fuel as [|fuel]; [lia|].
    pose (f1 := {| async_gen_func.state := GenSuspended; async_gen_func.n := 1;
                   async_gen_func.limit := L |}).
    assert (Hfirst : ag_anext (async_gen_func.call L) = (f1, [EvSleep], Return 1)).
    { simpl. unfold async_gen_func.__anext__, async_gen_func.asend,
        async_gen_func.loop. simpl.
      destruct (Z.ltb_spec 0 L); [reflexivity|lia]. }
    destruct (drain_sleeps _ _ _ 0%nat agf_sleepy_yield agf_sleepy_stop
                (Z.to_nat (L - 1)) f1 fuel eq_refl eq_refl ltac:(lia))
      as (f' & tr & Hrun & Hcount).
    exists f', (([EvSleep] ++ [ev_item 1]) ++ tr). split.
    + rewrite (while_running_on_item _ _ _ _ _ Hfirst), Hrun. reflexivity.
    + rewrite count_sleeps_app, Hcount. reflexivity.
  - destruct fuel as [|[|fuel]]; try lia.
    eexists _, _. split.
    + apply (while_running_on_stop (H := async_gen_func_callable) fuel
               (async_gen_func.call L)
               {| async_gen_func.state := GenClosed; async_gen_func.n := 0;
                  async_gen_func.limit := L |} [EvSleep] stop_iteration);
        [|reflexivity].
      simpl. unfold async_gen_func.__anext__, async_gen_func.asend,
        async_gen_func.loop. simpl.
      destruct (Z.ltb_spec 0 L); [lia|reflexivity].
    + reflexivity.
Qed.

Lemma aig_drain_sleeps_once (L : Z) (fuel : nat) :
  (Z.to_nat L + 2 <= fuel)%nat ->
  exists g' tr,
    manual (H := AsyncIterable_callable) fuel L = Some (g', tr, Return tt)
    /\ count_sleeps tr = 1%nat.
Proof.
  intros Hfuel. unfold manual.
  change (ag_aiter (ag_call L))
    with (AsyncIterable.__aiter__ (AsyncIterable.__init__ L)).
  destruct (Z.ltb_spec 0 L) as [Hpos|Hneg].
  - destruct fuel as [|fuel]; [lia|].
    pose (g1 := {| AsyncIterable.self := {| AsyncIterable.n := 1;
                                            AsyncIterable.limit := L |};
                   AsyncIterable.state := GenSuspended |}).
    assert (Hfirst : ag_anext (AsyncIterable.__aiter__ (AsyncIterable.__init__ L))
                     = (g1, [EvSleep], Return 1)).
    { simpl. unfold AsyncIterable.__anext__, AsyncIterable.asend,
        AsyncIterable.loop. simpl.
      destruct (Z.ltb_spec 0 L); [reflexivity|lia]. }
    destruct (drain_sleeps _ _ _ 0%nat aig_sleepy_yield aig_sleepy_stop
                (Z.to_nat (L - 1)) g1 fuel eq_refl eq_refl ltac:(lia))
      as (g' & tr & Hrun & Hcount).
    exists g', (([EvSleep] ++ [ev_item 1]) ++ tr). split.
    + rewrite (while_running_on_item _ _ _ _ _ Hfirst), Hrun. reflexivity.
    + rewrite count_sleeps_app, Hcount. reflexivity.
  - destruct fuel as [|[|fuel]]; try lia.
    eexists _, _. split.
    + apply (while_running_on_stop (H := AsyncIterable_callable) fuel
               (AsyncIterable.__aiter__ (AsyncIterable.__init__ L))
               {| AsyncIterable.self := AsyncIterable.__init__ L;
                  AsyncIterable.state := GenClosed |} [EvSleep] stop_iteration);
        [|reflexivity].
      simpl. unfold AsyncIterable.__anext__, AsyncIterable.asend,
        AsyncIterable.loop. simpl.
      destruct (Z.ltb_spec 0 L); [lia|reflexivity].
    + reflexivity.
Qed.

Lemma ait_drain_sleeps_each_step (L : Z) (fuel : nat) :
  (Z.to_nat L + 2 <= fuel)%nat ->
  exists it' tr,
    manual (H := AsyncIterator_callable) fuel L = Some (it', tr, Return tt)
    /\ count_sleeps tr = (Z.to_nat L + 1)%nat.
Proof.
  intros Hfuel. unfold manual.
  change (ag_aiter (ag_call L)) with (AsyncIterator.__init__ L).
  destruct (drain_sleeps _ _ (fun _ => True) 1%nat ait_sleepy_yield ait_sleepy_stop
              (Z.to_nat L) (AsyncIterator.__init__ L) fuel I
              ltac:(simpl; f_equal; lia) Hfuel)
    as (it' & tr & Hrun & Hcount).
  exists it', tr. split; [exact Hrun|]. lia.
Qed.

(** X4. What a full drain costs in sleeps.  The two generators sleep once,
    before their first step, however many items follow (also when there is
    none); [AsyncIterator] sleeps in every [__anext__], so [max(limit, 0) + 1]
    times, the last one only to find that it is exhausted. *)
Theorem drain_sleep_counts (L : Z) (extra : nat) :
  option_map (fun r => count_sleeps (snd (fst r)))
    (manual (H := async_gen_func_callable) (Z.to_nat L + 2 + extra) L) = Some 1%nat
  /\ option_map (fun r => count_sleeps (snd (fst r)))
       (manual (H := AsyncIterable_callable) (Z.to_nat L + 2 + extra) L) = Some 1%nat
  /\ option_map (fun r => count_sleeps (snd (fst r)))
       (manual (H := AsyncIterator_callable) (Z.to_nat L + 2 + extra) L)
     = Some (Z.to_nat (Z.max L 0) + 1)%nat.
Proof.
  destruct (agf_drain_sleeps_once L (Z.to_nat L + 2 + extra) ltac:(lia))
    as (f' & tr1 & -> & H1).
  destruct (aig_drain_sleeps_once L (Z.to_nat L + 2 + extra) ltac:(lia))
    as (g' & tr2 & -> & H2).
  destruct (ait_drain_sleeps_each_step L (Z.to_nat L + 2 + extra) ltac:(lia))
    as (it' & tr3 & -> & H3).
  simpl. rewrite H1, H2, H3. repeat split. f_equal. lia.
Qed.

(** ** The two halves of [demo_ag] *)

Lemma stdout_two_lines (tr1 tr2 : list event) :
  stdout (EvPrint "manual: " EmptyString :: tr1
          ++ EvPrint "magic : " EmptyString :: tr2)
  = EvPrint "manual: " EmptyString :: stdout tr1
    ++ EvPrint "magic : " EmptyString :: stdout tr2.
Proof.
  change (stdout (EvPrint "manual: " EmptyString :: tr1
                  ++ EvPrint "magic : " EmptyString :: tr2))
    with (EvPrint "manual: " EmptyString
          :: stdout (tr1 ++ EvPrint "magic : " EmptyString :: tr2)).
  now rewrite stdout_app.
Qed.

(** Once the first half has ended normally, the second half is the drain of
    [async_gen_func(limit)]. *)
Lemma demo_ag_after_manual {Iter Gen : Type} `{AgCallable Iter Gen}
  (fuel : nat) (limit : Z) (g : Gen) (tr1 : list event) (u : unit) :
  manual fuel limit = Some (g, tr1, Return u) ->
  (Z.to_nat limit + 2 <= fuel)%nat ->
  exists tr2,
    demo_ag fuel limit
    = Some (EvPrint "manual: " EmptyString :: tr1
            ++ EvPrint "magic : " EmptyString :: tr2, Return tt)
    /\ stdout tr2 = map ev_item (one_to limit) ++ [ev_done].
Proof.
  intros Hman Hfuel.
  destruct (agf_drain limit fuel Hfuel) as (f' & tr2 & Hrun & Hout & _).
  exists tr2. split; [|exact Hout].
  unfold demo_ag. rewrite Hman. unfold async_for.
  change (while_running fuel true (ag_aiter (async_gen_func.call limit)))
    with (manual (H := async_gen_func_callable) fuel limit).
  rewrite Hrun. reflexivity.
Qed.

(** X5. The second half of [demo_ag] does not look at [ag_callable].  For
    every producer: when the first half ends normally, the line after
    ["magic : "] is the drain of [async_gen_func(limit)], the items
    1, ..., limit and [done], whatever the first half printed; when the
    first half ends in an exception, the second half is not run at all:
    nothing is printed after the events of the first half and the exception
    leaves [demo_ag]. *)
Theorem demo_ag_second_half_ignores_callable
  {Iter Gen : Type} `{AgCallable Iter Gen}
  (fuel : nat) (limit : Z) (g : Gen) (tr1 : list event) (r1 : result unit)
  (Hman : manual fuel limit = Some (g, tr1, r1))
  (Hfuel : (Z.to_nat limit + 2 <= fuel)%nat) :
  match r1 with
  | Return _ =>
      exists tr2,
        demo_ag fuel limit
        = Some (EvPrint "manual: " EmptyString :: tr1
                ++ EvPrint "magic : " EmptyString :: tr2, Return tt)
        /\ stdout tr2 = map ev_item (one_to limit) ++ [ev_done]
  | Raise e =>
      demo_ag fuel limit = Some (EvPrint "manual: " EmptyString :: tr1, Raise e)
  end.
Proof.
  destruct r1 as [u|e].
  - eapply demo_ag_after_manual; eassumption.
  - unfold demo_ag. rewrite Hman. reflexivity.
Qed.

Lemma demo_ag_second_half_ignores_callable_witness :
  manual (H := AsyncIterator_callable) 7 2
  = Some ({| AsyncIterator.n := 3; AsyncIterator.limit := 2 |},
          [EvSleep; ev_item 1; EvSleep; ev_item 2; EvSleep; ev_done], Return tt)
  /\ (Z.to_nat 2 + 2 <= 7)%nat
  /\ exists tr2,
       demo_ag (H := AsyncIterator_callable) 7 2
       = Some (EvPrint "manual: " EmptyString
               :: [EvSleep; ev_item 1; EvSleep; ev_item 2; EvSleep; ev_done]
               ++ EvPrint "magic : " EmptyString :: tr2, Return tt)
       /\ stdout tr2 = map ev_item (one_to 2) ++ [ev_done].
Proof.
  split; [reflexivity|]. split; [simpl; lia|].
  apply (demo_ag_second_half_ignores_callable (H := AsyncIterator_callable) 7 2
           {| AsyncIterator.n := 3; AsyncIterator.limit := 2 |}
           [EvSleep; ev_item 1; EvSleep; ev_item 2; EvSleep; ev_done] (Return tt)
           eq_refl).
  simpl; lia.
Defined.

(** X7. For every integer limit, [demo_ag] prints the same two lines for
    [async_gen_func], [AsyncIterable] and [AsyncIterator] and ends
    normally: ["manual: "], the items 1, ..., limit, [done], then
    ["magic : "] and the same again. *)
Theorem demo_ag_prints_the_same_for_all_callables (L : Z) (extra : nat) :
  let lines :=
    EvPrint "manual: " EmptyString :: (map ev_item (one_to L) ++ [ev_done])
    ++ EvPrint "magic : " EmptyString :: (map ev_item (one_to L) ++ [ev_done]) in
  option_map (fun r => (stdout (fst r), snd r))
    (demo_ag (H := async_gen_func_callable) (Z.to_nat L + 2 + extra) L)
  = Some (lines, Return tt)
  /\ option_map (fun r => (stdout (fst r), snd r))
       (demo_ag (H := AsyncIterable_callable) (Z.to_nat L + 2 + extra) L)
     = Some (lines, Return tt)
  /\ option_map (fun r => (stdout (fst r), snd r))
       (demo_ag (H := AsyncIterator_callable) (Z.to_nat L + 2 + extra) L)
     = Some (lines, Return tt).
Proof.
  intros lines. unfold lines.
  assert (Hfuel : (Z.to_nat L + 2 <= Z.to_nat L + 2 + extra)%nat) by lia.
  destruct (agf_drain L _ Hfuel) as (f1 & tr1 & Hrun1 & Hout1 & _).
  destruct (aig_drain L _ Hfuel) as (g2 & tr2 & Hrun2 & Hout2 & _).
  destruct (ait_drain L _ Hfuel) as (it3 & tr3 & Hrun3 & Hout3 & _).
  destruct (demo_ag_after_manual _ _ _ _ _ Hrun1 Hfuel) as (m1 & -> & Hm1).
  destruct (demo_ag_after_manual _ _ _ _ _ Hrun2 Hfuel) as (m2 & -> & Hm2).
  destruct (demo_ag_after_manual _ _ _ _ _ Hrun3 Hfuel) as (m3 & -> & Hm3).
  cbn [option_map fst snd]. rewrite !stdout_two_lines.
  rewrite Hout1, Hout2, Hout3, Hm1, Hm2, Hm3. repeat split.
Qed.

(** ** The [else] of the loop *)

Lemma while_running_ends_with_done
  {Iter Gen : Type} `{AgCallable Iter Gen} (fuel : nat) :
  forall running g g' tr u,
    while_running fuel running g = Some (g', tr, Return u) ->
    exists tr0, tr = tr0 ++ [ev_done].
Proof.
  induction fuel as [|fuel IH]; intros running g g' tr u Hrun; [discriminate|].
  simpl in Hrun. destruct running.
  - destruct (ag_anext g) as [[g1 ev] [target|e1]].
    + destruct (while_running fuel true g1) as [[[g2 tr2] r2]|] eqn:Hrec;
        simpl in Hrun; [|discriminate].
      inversion Hrun; subst.
      destruct (IH _ _ _ _ _ Hrec) as [tr0 ->].
      exists ((ev ++ [ev_item target]) ++ tr0). now rewrite app_assoc.
    + destruct (exc_type e1); try discriminate.
      destruct (while_running fuel false g1) as [[[g2 tr2] r2]|] eqn:Hrec;
        simpl in Hrun; [|discriminate].
      inversion Hrun; subst.
      destruct (IH _ _ _ _ _ Hrec) as [tr0 ->].
      exists (ev ++ tr0). now rewrite app_assoc.
  - inversion Hrun; subst. exists []. reflexivity.
Qed.

Lemma while_running_ended_by_stop
  {Iter Gen : Type} `{AgCallable Iter Gen} (fuel : nat) :
  forall g g' tr u,
    while_running fuel true g = Some (g', tr, Return u) ->
    exists g1 ev e,
      ag_anext g1 = (g', ev, Raise e) /\ exc_type e = StopAsyncIteration.
Proof.
  induction fuel as [|fuel IH]; intros g g' tr u Hrun; [discriminate|].
  simpl in Hrun. destruct (ag_anext g) as [[g1 ev] [target|e1]] eqn:Hnext.
  - destruct (while_running fuel true g1) as [[[g2 tr2] r2]|] eqn:Hrec;
      simpl in Hrun; [|discriminate].
    inversion Hrun; subst. eapply IH; eassumption.
  - destruct (exc_type e1) eqn:Hty; try discriminate.
    destruct fuel as [|fuel]; [discriminate|].
    simpl in Hrun. inversion Hrun; subst.
    exists g, ev, e1. auto.
Qed.

(** X6. The [else] branch of the loop.  For every producer, state and
    fuel: when the driver loop ends normally, the last thing it did was
    [print("done")]; and a loop entered with [running] true ends normally
    only through the exhaustion signal: the producer is left in the state
    in which a [__anext__] that raised [StopAsyncIteration] put it. *)
Theorem loop_else_prints_done_last
  {Iter Gen : Type} `{AgCallable Iter Gen}
  (fuel : nat) (running : bool) (g g' : Gen) (tr : list event) (u : unit)
  (Hrun : while_running fuel running g = Some (g', tr, Return u)) :
  (exists tr0, tr = tr0 ++ [ev_done])
  /\ (running = true ->
      exists g1 ev e,
        ag_anext g1 = (g', ev, Raise e) /\ exc_type e = StopAsyncIteration).
Proof.
  split; [eapply while_running_ends_with_done; eassumption|].
  intros ->. eapply while_running_ended_by_stop; eassumption.
Qed.

Lemma loop_else_prints_done_last_witness :
  while_running (H := AsyncIterable_callable) 4 true received_1_of_3
  = Some ({| AsyncIterable.self := {| AsyncIterable.n := 3; AsyncIterable.limit := 3 |};
             AsyncIterable.state := GenClosed |},
          [ev_item 2; ev_item 3; ev_done], Return tt)
  /\ (exists tr0, [ev_item 2; ev_item 3; ev_done] = tr0 ++ [ev_done])
  /\ (true = true ->
      exists g1 ev e,
        ag_anext g1
        = ({| AsyncIterable.self := {| AsyncIterable.n := 3; AsyncIterable.limit := 3 |};
              AsyncIterable.state := GenClosed |}, ev, Raise e)
        /\ exc_type e = StopAsyncIteration).
Proof.
  split; [reflexivity|].
  apply (loop_else_prints_done_last (H := AsyncIterable_callable) 4 true
           received_1_of_3
           {| AsyncIterable.self := {| AsyncIterable.n := 3; AsyncIterable.limit := 3 |};
              AsyncIterable.state := GenClosed |}
           [ev_item 2; ev_item 3; ev_done] tt eq_refl).
Defined.

(** ** Decorated generator functions *)

Lemma has_flag_lor_l (a b c : Z) :
  Inspect.has_flag (Z.lor a b) c = Inspect.has_flag a c || Inspect.has_flag b c.
Proof.
  unfold Inspect.has_flag. rewrite Z.land_lor_distr_l.
  destruct (Z.eqb_spec (Z.lor (Z.land a c) (Z.land b c)) 0) as [H0|H0].
  - apply Z.lor_eq_0_iff in H0. destruct H0 as [-> ->]. reflexivity.
  - destruct (Z.eqb_spec (Z.land a c) 0) as [Ha|Ha];
      destruct (Z.eqb_spec (Z.land b c) 0) as [Hb|Hb]; try reflexivity.
    exfalso. apply H0. rewrite Ha, Hb. reflexivity.
Qed.

Lemma has_flag_lor_r (a b c : Z) :
  Inspect.has_flag a (Z.lor b c) = Inspect.has_flag a b || Inspect.has_flag a c.
Proof.
  unfold Inspect.has_flag. rewrite Z.land_lor_distr_r.
  destruct (Z.eqb_spec (Z.lor (Z.land a b) (Z.land a c)) 0) as [H0|H0].
  - apply Z.lor_eq_0_iff in H0. destruct H0 as [-> ->]. reflexivity.
  - destruct (Z.eqb_spec (Z.land a b) 0) as [Ha|Ha];
      destruct (Z.eqb_spec (Z.land a c) 0) as [Hb|Hb]; try reflexivity.
    exfalso. apply H0. rewrite Ha, Hb. reflexivity.
Qed.

(** What [@asyncio.coroutine] does to a generator function: the flag
    [CO_ITERABLE_COROUTINE] is set, nothing else changes. *)
Lemma asyncio_coroutine_generator (flags : Z) :
  Inspect.has_flag flags Inspect.CO_GENERATOR = true ->
  Inspect.has_flag flags Inspect.CO_COROUTINE = false ->
  Inspect.asyncio_coroutine (Inspect.Function flags)
  = Inspect.Function
      (if Inspect.has_flag flags Inspect.CO_ITERABLE_COROUTINE
       then flags else Z.lor flags Inspect.CO_ITERABLE_COROUTINE).
Proof.
  intros Hgen Hnative. unfold Inspect.asyncio_coroutine.
  cbn [Inspect.iscoroutinefunction Inspect.isgeneratorfunction].
  rewrite Hnative, Hgen. unfold Inspect.types_coroutine.
  rewrite has_flag_lor_r, Hnative, Hgen. cbn [orb].
  destruct (Inspect.has_flag flags Inspect.CO_ITERABLE_COROUTINE); reflexivity.
Qed.

(** X10. The assertions of cell 15 hold for every generator function, not
    only the one of the notebook.  Whatever the other code flags of a
    generator function are (arguments, closure, already marked by
    [types.coroutine] or not), after [@asyncio.coroutine] it is still not a
    coroutine function for [inspect], not a coroutine and not awaitable;
    a call of it returns a generator that is awaitable for
    [inspect.isawaitable], yet neither a coroutine nor an instance of
    [collections.abc.Awaitable]. *)
Theorem decorated_generator_function_is_told_apart (flags : Z)
  (Hgen : Inspect.has_flag flags Inspect.CO_GENERATOR = true)
  (Hnative : Inspect.has_flag flags Inspect.CO_COROUTINE = false) :
  Inspect.classify (Inspect.asyncio_coroutine (Inspect.Function flags))
  = (false, false, false)
  /\ Inspect.isinstance_Awaitable (Inspect.asyncio_coroutine (Inspect.Function flags))
     = false
  /\ exists flags',
       Inspect.call (Inspect.asyncio_coroutine (Inspect.Function flags))
       = Some (Inspect.GeneratorObject flags')
       /\ Inspect.classify (Inspect.GeneratorObject flags') = (false, false, true)
       /\ Inspect.isinstance_Awaitable (Inspect.GeneratorObject flags') = false.
Proof.
  rewrite (asyncio_coroutine_generator flags Hgen Hnative).
  unfold Inspect.classify, Inspect.isawaitable, Inspect.call.
  cbn [Inspect.iscoroutinefunction Inspect.iscoroutine orb].
  destruct (Inspect.has_flag flags Inspect.CO_ITERABLE_COROUTINE) eqn:Hiter.
  - rewrite Hnative, Hgen. repeat split.
    exists flags. rewrite Hiter. repeat split.
  - rewrite !has_flag_lor_l, Hnative, Hgen. repeat split.
    exists (Z.lor flags Inspect.CO_ITERABLE_COROUTINE).
    rewrite has_flag_lor_l, Hiter. repeat split.
Qed.

Lemma decorated_generator_function_is_told_apart_witness :
  Inspect.has_flag 47 Inspect.CO_GENERATOR = true
  /\ Inspect.has_flag 47 Inspect.CO_COROUTINE = false
  /\ Inspect.classify (Inspect.asyncio_coroutine (Inspect.Function 47))
     = (false, false, false)
  /\ Inspect.isinstance_Awaitable (Inspect.asyncio_coroutine (Inspect.Function 47))
     = false
  /\ exists flags',
       Inspect.call (Inspect.asyncio_coroutine (Inspect.Function 47))
       = Some (Inspect.GeneratorObject flags')
       /\ Inspect.classify (Inspect.GeneratorObject flags') = (false, false, true)
       /\ Inspect.isinstance_Awaitable (Inspect.GeneratorObject flags') = false.
Proof.
  split; [reflexivity|]. split; [reflexivity|].
  apply (decorated_generator_function_is_told_apart 47); reflexivity.
Defined.

(** ** One manager, many scopes *)

Lemma count_aenter_app (a b : list event) :
  count_aenter (a ++ b) = (count_aenter a + count_aenter b)%nat.
Proof. unfold count_aenter. now rewrite filter_app, length_app. Qed.

Lemma run_block_no_aenter {M : Type} (body : list (stmt M)) :
  forall cancel_at m, count_aenter (snd (fst (run_block body cancel_at m))) = 0%nat.
Proof.
  induction body as [|[f|] rest IH]; intros cancel_at m; simpl.
  - reflexivity.
  - destruct (f m) as [m' [u|e]]; [apply IH | reflexivity].
  - destruct cancel_at as [[|k]|].
    + reflexivity.
    + specialize (IH (Some k) m).
      destruct (run_block rest (Some k) m) as [[m' ev] r]. exact IH.
    + specialize (IH None m).
      destruct (run_block rest None m) as [[m' ev] r]. exact IH.
Qed.

(** One scope on an [AsyncContextManager]: one enter, one exit, and the
    block's outcome. *)
Lemma scope_on_counts (scope : list (stmt AsyncContextManager.t) * option nat)
  (acm : AsyncContextManager.t) :
  count_aenter (snd (fst (scope_on scope acm))) = 1%nat
  /\ count_aexit (snd (fst (scope_on scope acm))) = 1%nat
  /\ snd (scope_on scope acm) = snd (run_block (fst scope) (snd scope) acm).
Proof.
  destruct scope as [body cancel_at]. unfold scope_on. cbn [fst snd].
  pose proof (run_block_no_aexit body cancel_at acm) as Hexit.
  pose proof (run_block_no_aenter body cancel_at acm) as Henter.
  destruct (run_block body cancel_at acm) as [[m2 ev1] r] eqn:Hblock.
  rewrite (async_with_entered (H := AsyncContextManager_cm)
             acm acm m2 m2 body cancel_at [] ev1 [] PyNone PyNone r
             eq_refl Hblock eq_refl).
  cbn [fst snd app] in *.
  change (EvAEnter :: ev1 ++ [EvAExit (exc_info r)])
    with ([EvAEnter] ++ ev1 ++ [EvAExit (exc_info r)]).
  rewrite !count_aenter_app, !count_aexit_app, Henter.
  unfold count_aexit at 2. rewrite Hexit.
  repeat split. destruct r as [[]|e]; reflexivity.
Qed.

(** X12. An [AsyncContextManager] can be used for any number of scopes, one
    after the other: whatever the blocks do (end normally, raise, get
    cancelled while suspended), the statements await [__aenter__] and
    [__aexit__] once per scope, so as many times each as there are scopes,
    and every scope gives one outcome. *)
Theorem manager_is_reusable
  (scopes : list (list (stmt AsyncContextManager.t) * option nat))
  (acm : AsyncContextManager.t) :
  count_aenter (snd (fst (run_calls scope_on scopes acm))) = List.length scopes
  /\ count_aexit (snd (fst (run_calls scope_on scopes acm))) = List.length scopes
  /\ List.length (snd (run_calls scope_on scopes acm)) = List.length scopes.
Proof.
  revert acm. induction scopes as [|scope scopes IH]; intros acm.
  - repeat split.
  - cbn [run_calls List.length].
    destruct (scope_on_counts scope acm) as (Hin & Hout & _).
    destruct (scope_on scope acm) as [[acm1 ev1] r1].
    specialize (IH acm1).
    destruct (run_calls scope_on scopes acm1) as [[acm2 ev2] rs].
    cbn [fst snd List.length] in *.
    rewrite count_aenter_app, count_aexit_app, Hin, Hout.
    destruct IH as (-> & -> & ->). repeat split.
Qed.
